(** * Interview-analyzer: the transcript scorer

    A shallow embedding of [analyze_text] (backend/server.py) and of
    [mock_analysis] (frontend/app.py), with the properties their
    specification states about them.

    Modelling decisions.
    - A Python [str] is a list of Unicode code points ([list N]).  The
      whitespace class used by [str.split()] and [str.strip()] and the case
      mappings of [str.lower()] and [str.upper()] are the interpreter's
      complete tables (Unicode 14.0, as in CPython 3.11), the final form of
      the capital sigma included.
    - A Python [int] is a [Z].  A Python [float] is the rational number it
      stands for ([Q]): every float the scorer produces is a sum of a few
      multiples of 0.1, 0.5 and small integers, and the final
      [round(x, 1)] absorbs the binary representation error, so the rational
      reading gives the decimal value the interpreter prints.
    - [min], [max] and [round] keep Python's dynamic typing: they return one
      of their arguments, so a clamp that fires yields the [int] bound.
    - A ZeroDivisionError is the [None] of the option monad.
    - The result dictionaries are [gmap string value]. *)

From Stdlib Require Import ZArith QArith Qround Qminmax Lia Lqa.
From stdpp Require Import base option list gmap strings.

#[local] Open Scope Z_scope.

(** ** Strings *)

Module PyStr.

(** A string literal of the source, as a list of code points. *)
Definition lit (s : string) : list N :=
  map Ascii.N_of_ascii (String.list_ascii_of_string s).

(** [len(x)] *)
Definition len {A} (l : list A) : Z := Z.of_nat (length l).

(** Truth value of a string: non-empty. *)
Definition truthy (s : list N) : bool :=
  match s with [] => false | _ :: _ => true end.

(** [str.isspace] on one code point: the interpreter's whitespace class. *)
Definition isspace (c : N) : bool :=
  ((9 <=? c) && (c <=? 13) || (28 <=? c) && (c <=? 32) || (c =? 133)
   || (c =? 160) || (c =? 5760) || (8192 <=? c) && (c <=? 8202)
   || (c =? 8232) || (c =? 8233) || (c =? 8239) || (c =? 8287)
   || (c =? 12288))%N.

(** [s.split()]: maximal runs of non-whitespace, in order.  [cur] holds the
    run being read, reversed. *)
Fixpoint split_ws_from (cur : list N) (s : list N) : list (list N) :=
  match s with
  | [] => match cur with [] => [] | _ => [rev cur] end
  | c :: s' =>
      if isspace c then
        match cur with
        | [] => split_ws_from [] s'
        | _ => rev cur :: split_ws_from [] s'
        end
      else split_ws_from (c :: cur) s'
  end.

Definition split_ws (s : list N) : list (list N) := split_ws_from [] s.

(** [s.split(sep)] for a separator of one character, the only form in
    which the source calls it: one more segment than separators, empty
    segments kept. *)
Fixpoint split_from (sep : N) (cur : list N) (s : list N) : list (list N) :=
  match s with
  | [] => [rev cur]
  | c :: s' =>
      if (c =? sep)%N then rev cur :: split_from sep [] s'
      else split_from sep (c :: cur) s'
  end.

Definition split (sep : N) (s : list N) : list (list N) :=
  split_from sep [] s.

(** [s.strip()] *)
Fixpoint lstrip (s : list N) : list N :=
  match s with
  | [] => []
  | c :: s' => if isspace c then lstrip s' else s
  end.

Definition rstrip (s : list N) : list N := rev (lstrip (rev s)).

Definition strip (s : list N) : list N := rstrip (lstrip s).

(** *** Letter case

    [str.lower()] and [str.upper()] map each code point through the
    interpreter's tables (Unicode 14.0, CPython 3.11), reproduced below in
    full; [lower] also gives the capital sigma its final form where the
    context asks for it. *)

(** Code points skipped when looking for the letters around a capital
    sigma (the case-ignorable ones), as closed ranges. *)
Definition case_ignorable_ranges : list (Z * Z) :=
  [(39, 39); (46, 46); (58, 58); (94, 94); (96, 96); (168, 168);
   (173, 173); (175, 175); (180, 180); (183, 184); (688, 879); (884, 885);
   (890, 890); (900, 901); (903, 903); (1155, 1161); (1369, 1369); (1375, 1375);
   (1425, 1469); (1471, 1471); (1473, 1474); (1476, 1477); (1479, 1479); (1524, 1524);
   (1536, 1541); (1552, 1562); (1564, 1564); (1600, 1600); (1611, 1631); (1648, 1648);
   (1750, 1757); (1759, 1768); (1770, 1773); (1807, 1807); (1809, 1809); (1840, 1866);
   (1958, 1968); (2027, 2037); (2042, 2042); (2045, 2045); (2070, 2093); (2137, 2139);
   (2184, 2184); (2192, 2193); (2200, 2207); (2249, 2306); (2362, 2362); (2364, 2364);
   (2369, 2376); (2381, 2381); (2385, 2391); (2402, 2403); (2417, 2417); (2433, 2433);
   (2492, 2492); (2497, 2500); (2509, 2509); (2530, 2531); (2558, 2558); (2561, 2562);
   (2620, 2620); (2625, 2626); (2631, 2632); (2635, 2637); (2641, 2641); (2672, 2673);
   (2677, 2677); (2689, 2690); (2748, 2748); (2753, 2757); (2759, 2760); (2765, 2765);
   (2786, 2787); (2810, 2815); (2817, 2817); (2876, 2876); (2879, 2879); (2881, 2884);
   (2893, 2893); (2901, 2902); (2914, 2915); (2946, 2946); (3008, 3008); (3021, 3021);
   (3072, 3072); (3076, 3076); (3132, 3132); (3134, 3136); (3142, 3144); (3146, 3149);
   (3157, 3158); (3170, 3171); (3201, 3201); (3260, 3260); (3263, 3263); (3270, 3270);
   (3276, 3277); (3298, 3299); (3328, 3329); (3387, 3388); (3393, 3396); (3405, 3405);
   (3426, 3427); (3457, 3457); (3530, 3530); (3538, 3540); (3542, 3542); (3633, 3633);
   (3636, 3642); (3654, 3662); (3761, 3761); (3764, 3772); (3782, 3782); (3784, 3789);
   (3864, 3865); (3893, 3893); (3895, 3895); (3897, 3897); (3953, 3966); (3968, 3972);
   (3974, 3975); (3981, 3991); (3993, 4028); (4038, 4038); (4141, 4144); (4146, 4151);
   (4153, 4154); (4157, 4158); (4184, 4185); (4190, 4192); (4209, 4212); (4226, 4226);
   (4229, 4230); (4237, 4237); (4253, 4253); (4348, 4348); (4957, 4959); (5906, 5908);
   (5938, 5939); (5970, 5971); (6002, 6003); (6068, 6069); (6071, 6077); (6086, 6086);
   (6089, 6099); (6103, 6103); (6109, 6109); (6155, 6159); (6211, 6211); (6277, 6278);
   (6313, 6313); (6432, 6434); (6439, 6440); (6450, 6450); (6457, 6459); (6679, 6680);
   (6683, 6683); (6742, 6742); (6744, 6750); (6752, 6752); (6754, 6754); (6757, 6764);
   (6771, 6780); (6783, 6783); (6823, 6823); (6832, 6862); (6912, 6915); (6964, 6964);
   (6966, 6970); (6972, 6972); (6978, 6978); (7019, 7027); (7040, 7041); (7074, 7077);
   (7080, 7081); (7083, 7085); (7142, 7142); (7144, 7145); (7149, 7149); (7151, 7153);
   (7212, 7219); (7222, 7223); (7288, 7293); (7376, 7378); (7380, 7392); (7394, 7400);
   (7405, 7405); (7412, 7412); (7416, 7417); (7468, 7530); (7544, 7544); (7579, 7679);
   (8125, 8125); (8127, 8129); (8141, 8143); (8157, 8159); (8173, 8175); (8189, 8190);
   (8203, 8207); (8216, 8217); (8228, 8228); (8231, 8231); (8234, 8238); (8288, 8292);
   (8294, 8303); (8305, 8305); (8319, 8319); (8336, 8348); (8400, 8432); (11388, 11389);
   (11503, 11505); (11631, 11631); (11647, 11647); (11744, 11775); (11823, 11823); (12293, 12293);
   (12330, 12333); (12337, 12341); (12347, 12347); (12441, 12446); (12540, 12542); (40981, 40981);
   (42232, 42237); (42508, 42508); (42607, 42610); (42612, 42621); (42623, 42623); (42652, 42655);
   (42736, 42737); (42752, 42785); (42864, 42864); (42888, 42890); (42994, 42996); (43000, 43001);
   (43010, 43010); (43014, 43014); (43019, 43019); (43045, 43046); (43052, 43052); (43204, 43205);
   (43232, 43249); (43263, 43263); (43302, 43309); (43335, 43345); (43392, 43394); (43443, 43443);
   (43446, 43449); (43452, 43453); (43471, 43471); (43493, 43494); (43561, 43566); (43569, 43570);
   (43573, 43574); (43587, 43587); (43596, 43596); (43632, 43632); (43644, 43644); (43696, 43696);
   (43698, 43700); (43703, 43704); (43710, 43711); (43713, 43713); (43741, 43741); (43756, 43757);
   (43763, 43764); (43766, 43766); (43867, 43871); (43881, 43883); (44005, 44005); (44008, 44008);
   (44013, 44013); (64286, 64286); (64434, 64450); (65024, 65039); (65043, 65043); (65056, 65071);
   (65106, 65106); (65109, 65109); (65279, 65279); (65287, 65287); (65294, 65294); (65306, 65306);
   (65342, 65342); (65344, 65344); (65392, 65392); (65438, 65439); (65507, 65507); (65529, 65531);
   (66045, 66045); (66272, 66272); (66422, 66426); (67456, 67461); (67463, 67504); (67506, 67514);
   (68097, 68099); (68101, 68102); (68108, 68111); (68152, 68154); (68159, 68159); (68325, 68326);
   (68900, 68903); (69291, 69292); (69446, 69456); (69506, 69509); (69633, 69633); (69688, 69702);
   (69744, 69744); (69747, 69748); (69759, 69761); (69811, 69814); (69817, 69818); (69821, 69821);
   (69826, 69826); (69837, 69837); (69888, 69890); (69927, 69931); (69933, 69940); (70003, 70003);
   (70016, 70017); (70070, 70078); (70089, 70092); (70095, 70095); (70191, 70193); (70196, 70196);
   (70198, 70199); (70206, 70206); (70367, 70367); (70371, 70378); (70400, 70401); (70459, 70460);
   (70464, 70464); (70502, 70508); (70512, 70516); (70712, 70719); (70722, 70724); (70726, 70726);
   (70750, 70750); (70835, 70840); (70842, 70842); (70847, 70848); (70850, 70851); (71090, 71093);
   (71100, 71101); (71103, 71104); (71132, 71133); (71219, 71226); (71229, 71229); (71231, 71232);
   (71339, 71339); (71341, 71341); (71344, 71349); (71351, 71351); (71453, 71455); (71458, 71461);
   (71463, 71467); (71727, 71735); (71737, 71738); (71995, 71996); (71998, 71998); (72003, 72003);
   (72148, 72151); (72154, 72155); (72160, 72160); (72193, 72202); (72243, 72248); (72251, 72254);
   (72263, 72263); (72273, 72278); (72281, 72283); (72330, 72342); (72344, 72345); (72752, 72758);
   (72760, 72765); (72767, 72767); (72850, 72871); (72874, 72880); (72882, 72883); (72885, 72886);
   (73009, 73014); (73018, 73018); (73020, 73021); (73023, 73029); (73031, 73031); (73104, 73105);
   (73109, 73109); (73111, 73111); (73459, 73460); (78896, 78904); (92912, 92916); (92976, 92982);
   (92992, 92995); (94031, 94031); (94095, 94111); (94176, 94177); (94179, 94180); (110576, 110579);
   (110581, 110587); (110589, 110590); (113821, 113822); (113824, 113827); (118528, 118573); (118576, 118598);
   (119143, 119145); (119155, 119170); (119173, 119179); (119210, 119213); (119362, 119364); (121344, 121398);
   (121403, 121452); (121461, 121461); (121476, 121476); (121499, 121503); (121505, 121519); (122880, 122886);
   (122888, 122904); (122907, 122913); (122915, 122916); (122918, 122922); (123184, 123197); (123566, 123566);
   (123628, 123631); (125136, 125142); (125252, 125259); (127995, 127999); (917505, 917505); (917536, 917631);
   (917760, 917999)].

(** Cased code points among the others: lowercase, uppercase or titlecase
    letters. *)
Definition cased_ranges : list (Z * Z) :=
  [(65, 90); (97, 122); (170, 170); (181, 181); (186, 186); (192, 214);
   (216, 246); (248, 442); (444, 447); (452, 659); (661, 687); (880, 883);
   (886, 887); (891, 893); (895, 895); (902, 902); (904, 906); (908, 908);
   (910, 929); (931, 1013); (1015, 1153); (1162, 1327); (1329, 1366); (1376, 1416);
   (4256, 4293); (4295, 4295); (4301, 4301); (4304, 4346); (4349, 4351); (5024, 5109);
   (5112, 5117); (7296, 7304); (7312, 7354); (7357, 7359); (7424, 7467); (7531, 7543);
   (7545, 7578); (7680, 7957); (7960, 7965); (7968, 8005); (8008, 8013); (8016, 8023);
   (8025, 8025); (8027, 8027); (8029, 8029); (8031, 8061); (8064, 8116); (8118, 8124);
   (8126, 8126); (8130, 8132); (8134, 8140); (8144, 8147); (8150, 8155); (8160, 8172);
   (8178, 8180); (8182, 8188); (8450, 8450); (8455, 8455); (8458, 8467); (8469, 8469);
   (8473, 8477); (8484, 8484); (8486, 8486); (8488, 8488); (8490, 8493); (8495, 8500);
   (8505, 8505); (8508, 8511); (8517, 8521); (8526, 8526); (8544, 8575); (8579, 8580);
   (9398, 9449); (11264, 11387); (11390, 11492); (11499, 11502); (11506, 11507); (11520, 11557);
   (11559, 11559); (11565, 11565); (42560, 42605); (42624, 42651); (42786, 42863); (42865, 42887);
   (42891, 42894); (42896, 42954); (42960, 42961); (42963, 42963); (42965, 42969); (42997, 42998);
   (43002, 43002); (43824, 43866); (43872, 43880); (43888, 43967); (64256, 64262); (64275, 64279);
   (65313, 65338); (65345, 65370); (66560, 66639); (66736, 66771); (66776, 66811); (66928, 66938);
   (66940, 66954); (66956, 66962); (66964, 66965); (66967, 66977); (66979, 66993); (66995, 67001);
   (67003, 67004); (68736, 68786); (68800, 68850); (71840, 71903); (93760, 93823); (119808, 119892);
   (119894, 119964); (119966, 119967); (119970, 119970); (119973, 119974); (119977, 119980); (119982, 119993);
   (119995, 119995); (119997, 120003); (120005, 120069); (120071, 120074); (120077, 120084); (120086, 120092);
   (120094, 120121); (120123, 120126); (120128, 120132); (120134, 120134); (120138, 120144); (120146, 120485);
   (120488, 120512); (120514, 120538); (120540, 120570); (120572, 120596); (120598, 120628); (120630, 120654);
   (120656, 120686); (120688, 120712); (120714, 120744); (120746, 120770); (120772, 120779); (122624, 122633);
   (122635, 122654); (125184, 125251); (127280, 127305); (127312, 127337); (127344, 127369)].

(** Simple lowercase mappings: every [step]-th code point from [first] to
    [last] moves by [shift]. *)
Definition lower_shifts : list (Z * Z * Z * Z) :=
  [(65, 90, 1, 32); (192, 214, 1, 32); (216, 222, 1, 32); (256, 302, 2, 1);
   (306, 310, 2, 1); (313, 327, 2, 1); (330, 374, 2, 1); (376, 376, 1, -121);
   (377, 381, 2, 1); (385, 385, 1, 210); (386, 388, 2, 1); (390, 390, 1, 206);
   (391, 391, 1, 1); (393, 394, 1, 205); (395, 395, 1, 1); (398, 398, 1, 79);
   (399, 399, 1, 202); (400, 400, 1, 203); (401, 401, 1, 1); (403, 403, 1, 205);
   (404, 404, 1, 207); (406, 406, 1, 211); (407, 407, 1, 209); (408, 408, 1, 1);
   (412, 412, 1, 211); (413, 413, 1, 213); (415, 415, 1, 214); (416, 420, 2, 1);
   (422, 422, 1, 218); (423, 423, 1, 1); (425, 425, 1, 218); (428, 428, 1, 1);
   (430, 430, 1, 218); (431, 431, 1, 1); (433, 434, 1, 217); (435, 437, 2, 1);
   (439, 439, 1, 219); (440, 440, 1, 1); (444, 444, 1, 1); (452, 452, 1, 2);
   (453, 453, 1, 1); (455, 455, 1, 2); (456, 456, 1, 1); (458, 458, 1, 2);
   (459, 475, 2, 1); (478, 494, 2, 1); (497, 497, 1, 2); (498, 500, 2, 1);
   (502, 502, 1, -97); (503, 503, 1, -56); (504, 542, 2, 1); (544, 544, 1, -130);
   (546, 562, 2, 1); (570, 570, 1, 10795); (571, 571, 1, 1); (573, 573, 1, -163);
   (574, 574, 1, 10792); (577, 577, 1, 1); (579, 579, 1, -195); (580, 580, 1, 69);
   (581, 581, 1, 71); (582, 590, 2, 1); (880, 882, 2, 1); (886, 886, 1, 1);
   (895, 895, 1, 116); (902, 902, 1, 38); (904, 906, 1, 37); (908, 908, 1, 64);
   (910, 911, 1, 63); (913, 929, 1, 32); (931, 939, 1, 32); (975, 975, 1, 8);
   (984, 1006, 2, 1); (1012, 1012, 1, -60); (1015, 1015, 1, 1); (1017, 1017, 1, -7);
   (1018, 1018, 1, 1); (1021, 1023, 1, -130); (1024, 1039, 1, 80); (1040, 1071, 1, 32);
   (1120, 1152, 2, 1); (1162, 1214, 2, 1); (1216, 1216, 1, 15); (1217, 1229, 2, 1);
   (1232, 1326, 2, 1); (1329, 1366, 1, 48); (4256, 4293, 1, 7264); (4295, 4295, 1, 7264);
   (4301, 4301, 1, 7264); (5024, 5103, 1, 38864); (5104, 5109, 1, 8); (7312, 7354, 1, -3008);
   (7357, 7359, 1, -3008); (7680, 7828, 2, 1); (7838, 7838, 1, -7615); (7840, 7934, 2, 1);
   (7944, 7951, 1, -8); (7960, 7965, 1, -8); (7976, 7983, 1, -8); (7992, 7999, 1, -8);
   (8008, 8013, 1, -8); (8025, 8031, 2, -8); (8040, 8047, 1, -8); (8072, 8079, 1, -8);
   (8088, 8095, 1, -8); (8104, 8111, 1, -8); (8120, 8121, 1, -8); (8122, 8123, 1, -74);
   (8124, 8124, 1, -9); (8136, 8139, 1, -86); (8140, 8140, 1, -9); (8152, 8153, 1, -8);
   (8154, 8155, 1, -100); (8168, 8169, 1, -8); (8170, 8171, 1, -112); (8172, 8172, 1, -7);
   (8184, 8185, 1, -128); (8186, 8187, 1, -126); (8188, 8188, 1, -9); (8486, 8486, 1, -7517);
   (8490, 8490, 1, -8383); (8491, 8491, 1, -8262); (8498, 8498, 1, 28); (8544, 8559, 1, 16);
   (8579, 8579, 1, 1); (9398, 9423, 1, 26); (11264, 11311, 1, 48); (11360, 11360, 1, 1);
   (11362, 11362, 1, -10743); (11363, 11363, 1, -3814); (11364, 11364, 1, -10727); (11367, 11371, 2, 1);
   (11373, 11373, 1, -10780); (11374, 11374, 1, -10749); (11375, 11375, 1, -10783); (11376, 11376, 1, -10782);
   (11378, 11378, 1, 1); (11381, 11381, 1, 1); (11390, 11391, 1, -10815); (11392, 11490, 2, 1);
   (11499, 11501, 2, 1); (11506, 11506, 1, 1); (42560, 42604, 2, 1); (42624, 42650, 2, 1);
   (42786, 42798, 2, 1); (42802, 42862, 2, 1); (42873, 42875, 2, 1); (42877, 42877, 1, -35332);
   (42878, 42886, 2, 1); (42891, 42891, 1, 1); (42893, 42893, 1, -42280); (42896, 42898, 2, 1);
   (42902, 42920, 2, 1); (42922, 42922, 1, -42308); (42923, 42923, 1, -42319); (42924, 42924, 1, -42315);
   (42925, 42925, 1, -42305); (42926, 42926, 1, -42308); (42928, 42928, 1, -42258); (42929, 42929, 1, -42282);
   (42930, 42930, 1, -42261); (42931, 42931, 1, 928); (42932, 42946, 2, 1); (42948, 42948, 1, -48);
   (42949, 42949, 1, -42307); (42950, 42950, 1, -35384); (42951, 42953, 2, 1); (42960, 42960, 1, 1);
   (42966, 42968, 2, 1); (42997, 42997, 1, 1); (65313, 65338, 1, 32); (66560, 66599, 1, 40);
   (66736, 66771, 1, 40); (66928, 66964, 2, 39); (66929, 66937, 2, 39); (66941, 66953, 2, 39);
   (66957, 66961, 2, 39); (66965, 66965, 1, 39); (68736, 68786, 1, 64); (71840, 71871, 1, 32);
   (93760, 93791, 1, 32); (125184, 125217, 1, 34)].

(** The one lowercase mapping to several code points. *)
Definition lower_special : list (Z * list N) :=
  [(304, [105; 775]%N)].

(** Simple uppercase mappings. *)
Definition upper_shifts : list (Z * Z * Z * Z) :=
  [(97, 122, 1, -32); (181, 181, 1, 743); (224, 246, 1, -32); (248, 254, 1, -32);
   (255, 255, 1, 121); (257, 303, 2, -1); (305, 305, 1, -232); (307, 311, 2, -1);
   (314, 328, 2, -1); (331, 375, 2, -1); (378, 382, 2, -1); (383, 383, 1, -300);
   (384, 384, 1, 195); (387, 389, 2, -1); (392, 392, 1, -1); (396, 396, 1, -1);
   (402, 402, 1, -1); (405, 405, 1, 97); (409, 409, 1, -1); (410, 410, 1, 163);
   (414, 414, 1, 130); (417, 421, 2, -1); (424, 424, 1, -1); (429, 429, 1, -1);
   (432, 432, 1, -1); (436, 438, 2, -1); (441, 441, 1, -1); (445, 445, 1, -1);
   (447, 447, 1, 56); (453, 453, 1, -1); (454, 454, 1, -2); (456, 456, 1, -1);
   (457, 457, 1, -2); (459, 459, 1, -1); (460, 460, 1, -2); (462, 476, 2, -1);
   (477, 477, 1, -79); (479, 495, 2, -1); (498, 498, 1, -1); (499, 499, 1, -2);
   (501, 501, 1, -1); (505, 543, 2, -1); (547, 563, 2, -1); (572, 572, 1, -1);
   (575, 576, 1, 10815); (578, 578, 1, -1); (583, 591, 2, -1); (592, 592, 1, 10783);
   (593, 593, 1, 10780); (594, 594, 1, 10782); (595, 595, 1, -210); (596, 596, 1, -206);
   (598, 599, 1, -205); (601, 601, 1, -202); (603, 603, 1, -203); (604, 604, 1, 42319);
   (608, 608, 1, -205); (609, 609, 1, 42315); (611, 611, 1, -207); (613, 613, 1, 42280);
   (614, 614, 1, 42308); (616, 616, 1, -209); (617, 617, 1, -211); (618, 618, 1, 42308);
   (619, 619, 1, 10743); (620, 620, 1, 42305); (623, 623, 1, -211); (625, 625, 1, 10749);
   (626, 626, 1, -213); (629, 629, 1, -214); (637, 637, 1, 10727); (640, 640, 1, -218);
   (642, 642, 1, 42307); (643, 643, 1, -218); (647, 647, 1, 42282); (648, 648, 1, -218);
   (649, 649, 1, -69); (650, 651, 1, -217); (652, 652, 1, -71); (658, 658, 1, -219);
   (669, 669, 1, 42261); (670, 670, 1, 42258); (837, 837, 1, 84); (881, 883, 2, -1);
   (887, 887, 1, -1); (891, 893, 1, 130); (940, 940, 1, -38); (941, 943, 1, -37);
   (945, 961, 1, -32); (962, 962, 1, -31); (963, 971, 1, -32); (972, 972, 1, -64);
   (973, 974, 1, -63); (976, 976, 1, -62); (977, 977, 1, -57); (981, 981, 1, -47);
   (982, 982, 1, -54); (983, 983, 1, -8); (985, 1007, 2, -1); (1008, 1008, 1, -86);
   (1009, 1009, 1, -80); (1010, 1010, 1, 7); (1011, 1011, 1, -116); (1013, 1013, 1, -96);
   (1016, 1016, 1, -1); (1019, 1019, 1, -1); (1072, 1103, 1, -32); (1104, 1119, 1, -80);
   (1121, 1153, 2, -1); (1163, 1215, 2, -1); (1218, 1230, 2, -1); (1231, 1231, 1, -15);
   (1233, 1327, 2, -1); (1377, 1414, 1, -48); (4304, 4346, 1, 3008); (4349, 4351, 1, 3008);
   (5112, 5117, 1, -8); (7296, 7296, 1, -6254); (7297, 7297, 1, -6253); (7298, 7298, 1, -6244);
   (7299, 7300, 1, -6242); (7301, 7301, 1, -6243); (7302, 7302, 1, -6236); (7303, 7303, 1, -6181);
   (7304, 7304, 1, 35266); (7545, 7545, 1, 35332); (7549, 7549, 1, 3814); (7566, 7566, 1, 35384);
   (7681, 7829, 2, -1); (7835, 7835, 1, -59); (7841, 7935, 2, -1); (7936, 7943, 1, 8);
   (7952, 7957, 1, 8); (7968, 7975, 1, 8); (7984, 7991, 1, 8); (8000, 8005, 1, 8);
   (8017, 8023, 2, 8); (8032, 8039, 1, 8); (8048, 8049, 1, 74); (8050, 8053, 1, 86);
   (8054, 8055, 1, 100); (8056, 8057, 1, 128); (8058, 8059, 1, 112); (8060, 8061, 1, 126);
   (8112, 8113, 1, 8); (8126, 8126, 1, -7205); (8144, 8145, 1, 8); (8160, 8161, 1, 8);
   (8165, 8165, 1, 7); (8526, 8526, 1, -28); (8560, 8575, 1, -16); (8580, 8580, 1, -1);
   (9424, 9449, 1, -26); (11312, 11359, 1, -48); (11361, 11361, 1, -1); (11365, 11365, 1, -10795);
   (11366, 11366, 1, -10792); (11368, 11372, 2, -1); (11379, 11379, 1, -1); (11382, 11382, 1, -1);
   (11393, 11491, 2, -1); (11500, 11502, 2, -1); (11507, 11507, 1, -1); (11520, 11557, 1, -7264);
   (11559, 11559, 1, -7264); (11565, 11565, 1, -7264); (42561, 42605, 2, -1); (42625, 42651, 2, -1);
   (42787, 42799, 2, -1); (42803, 42863, 2, -1); (42874, 42876, 2, -1); (42879, 42887, 2, -1);
   (42892, 42892, 1, -1); (42897, 42899, 2, -1); (42900, 42900, 1, 48); (42903, 42921, 2, -1);
   (42933, 42947, 2, -1); (42952, 42954, 2, -1); (42961, 42961, 1, -1); (42967, 42969, 2, -1);
   (42998, 42998, 1, -1); (43859, 43859, 1, -928); (43888, 43967, 1, -38864); (65345, 65370, 1, -32);
   (66600, 66639, 1, -40); (66776, 66811, 1, -40); (66967, 67003, 2, -39); (66968, 66976, 2, -39);
   (66980, 66992, 2, -39); (66996, 67000, 2, -39); (67004, 67004, 1, -39); (68800, 68850, 1, -64);
   (71872, 71903, 1, -32); (93792, 93823, 1, -32); (125218, 125251, 1, -34)].

(** Uppercase mappings to several code points. *)
Definition upper_special : list (Z * list N) :=
  [(223, [83; 83]%N); (329, [700; 78]%N); (496, [74; 780]%N);
   (912, [921; 776; 769]%N); (944, [933; 776; 769]%N); (1415, [1333; 1362]%N);
   (7830, [72; 817]%N); (7831, [84; 776]%N); (7832, [87; 778]%N);
   (7833, [89; 778]%N); (7834, [65; 702]%N); (8016, [933; 787]%N);
   (8018, [933; 787; 768]%N); (8020, [933; 787; 769]%N); (8022, [933; 787; 834]%N);
   (8064, [7944; 921]%N); (8065, [7945; 921]%N); (8066, [7946; 921]%N);
   (8067, [7947; 921]%N); (8068, [7948; 921]%N); (8069, [7949; 921]%N);
   (8070, [7950; 921]%N); (8071, [7951; 921]%N); (8072, [7944; 921]%N);
   (8073, [7945; 921]%N); (8074, [7946; 921]%N); (8075, [7947; 921]%N);
   (8076, [7948; 921]%N); (8077, [7949; 921]%N); (8078, [7950; 921]%N);
   (8079, [7951; 921]%N); (8080, [7976; 921]%N); (8081, [7977; 921]%N);
   (8082, [7978; 921]%N); (8083, [7979; 921]%N); (8084, [7980; 921]%N);
   (8085, [7981; 921]%N); (8086, [7982; 921]%N); (8087, [7983; 921]%N);
   (8088, [7976; 921]%N); (8089, [7977; 921]%N); (8090, [7978; 921]%N);
   (8091, [7979; 921]%N); (8092, [7980; 921]%N); (8093, [7981; 921]%N);
   (8094, [7982; 921]%N); (8095, [7983; 921]%N); (8096, [8040; 921]%N);
   (8097, [8041; 921]%N); (8098, [8042; 921]%N); (8099, [8043; 921]%N);
   (8100, [8044; 921]%N); (8101, [8045; 921]%N); (8102, [8046; 921]%N);
   (8103, [8047; 921]%N); (8104, [8040; 921]%N); (8105, [8041; 921]%N);
   (8106, [8042; 921]%N); (8107, [8043; 921]%N); (8108, [8044; 921]%N);
   (8109, [8045; 921]%N); (8110, [8046; 921]%N); (8111, [8047; 921]%N);
   (8114, [8122; 921]%N); (8115, [913; 921]%N); (8116, [902; 921]%N);
   (8118, [913; 834]%N); (8119, [913; 834; 921]%N); (8124, [913; 921]%N);
   (8130, [8138; 921]%N); (8131, [919; 921]%N); (8132, [905; 921]%N);
   (8134, [919; 834]%N); (8135, [919; 834; 921]%N); (8140, [919; 921]%N);
   (8146, [921; 776; 768]%N); (8147, [921; 776; 769]%N); (8150, [921; 834]%N);
   (8151, [921; 776; 834]%N); (8162, [933; 776; 768]%N); (8163, [933; 776; 769]%N);
   (8164, [929; 787]%N); (8166, [933; 834]%N); (8167, [933; 776; 834]%N);
   (8178, [8186; 921]%N); (8179, [937; 921]%N); (8180, [911; 921]%N);
   (8182, [937; 834]%N); (8183, [937; 834; 921]%N); (8188, [937; 921]%N);
   (64256, [70; 70]%N); (64257, [70; 73]%N); (64258, [70; 76]%N);
   (64259, [70; 70; 73]%N); (64260, [70; 70; 76]%N); (64261, [83; 84]%N);
   (64262, [83; 84]%N); (64275, [1348; 1350]%N); (64276, [1348; 1333]%N);
   (64277, [1348; 1339]%N); (64278, [1358; 1350]%N); (64279, [1348; 1341]%N)].

Fixpoint in_ranges (table : list (Z * Z)) (c : Z) : bool :=
  match table with
  | [] => false
  | (first, last) :: rest =>
      if (first <=? c) && (c <=? last) then true else in_ranges rest c
  end.

Fixpoint shift_in (table : list (Z * Z * Z * Z)) (c : Z) : option Z :=
  match table with
  | [] => None
  | (first, last, step, shift) :: rest =>
      if (first <=? c) && (c <=? last)
      then if (c - first) mod step =? 0 then Some shift else shift_in rest c
      else shift_in rest c
  end.

Fixpoint special_in (table : list (Z * list N)) (c : Z) : option (list N) :=
  match table with
  | [] => None
  | (k, l) :: rest => if k =? c then Some l else special_in rest c
  end.

(** The full mapping of one code point. *)
Definition map_cp (special : list (Z * list N)) (shifts : list (Z * Z * Z * Z))
    (c : N) : list N :=
  match special_in special (Z.of_N c) with
  | Some l => l
  | None =>
      match shift_in shifts (Z.of_N c) with
      | Some shift => [Z.to_N (Z.of_N c + shift)]
      | None => [c]
      end
  end.

Definition lower_cp (c : N) : list N := map_cp lower_special lower_shifts c.
Definition upper_cp (c : N) : list N := map_cp upper_special upper_shifts c.

Definition case_ignorable (c : N) : bool := in_ranges case_ignorable_ranges (Z.of_N c).
Definition cased (c : N) : bool := in_ranges cased_ranges (Z.of_N c).

(** Whether the first code point of [s] that is not case-ignorable is
    cased. *)
Fixpoint first_letter_cased (s : list N) : bool :=
  match s with
  | [] => false
  | c :: s' => if case_ignorable c then first_letter_cased s' else cased c
  end.

(** The capital sigma (U+03A3) takes its final form when a cased letter
    stands before it and none after it; [before] is the text before it,
    nearest character first. *)
Definition final_sigma (before after : list N) : bool :=
  first_letter_cased before && negb (first_letter_cased after).

Fixpoint lower_from (before : list N) (s : list N) : list N :=
  match s with
  | [] => []
  | c :: s' =>
      (if (c =? 931)%N
       then [if final_sigma before s' then 962%N else 963%N]
       else lower_cp c)
      ++ lower_from (c :: before) s'
  end.

Definition lower (s : list N) : list N := lower_from [] s.
Definition upper (s : list N) : list N := flat_map upper_cp s.

(** [s.startswith(p)] *)
Fixpoint startswith (p s : list N) : bool :=
  match p, s with
  | [], _ => true
  | _ :: _, [] => false
  | a :: p', b :: s' => (a =? b)%N && startswith p' s'
  end.

(** [sub in s] *)
Fixpoint contains (sub s : list N) : bool :=
  startswith sub s
  || match s with [] => false | _ :: s' => contains sub s' end.

(** [s.count(sub)]: occurrences found left to right, the search resuming
    after each one.  [skip] is the number of characters of the last
    occurrence still to pass. *)
Fixpoint count_from (sub : list N) (skip : nat) (s : list N) : Z :=
  match s with
  | [] => 0
  | _ :: s' =>
      match skip with
      | S k => count_from sub k s'
      | O =>
          if startswith sub s
          then 1 + count_from sub (length sub - 1) s'
          else count_from sub 0 s'
      end
  end.

Definition count (sub s : list N) : Z :=
  match sub with
  | [] => len s + 1
  | _ => count_from sub 0 s
  end.

(** [sum(1 for w in ws if w in s)] *)
Definition count_if_in (ws : list (list N)) (s : list N) : Z :=
  foldl (fun acc w => if contains w s then acc + 1 else acc) 0 ws.

(** [any(w in s for w in ws)] *)
Definition any_in (ws : list (list N)) (s : list N) : bool :=
  existsb (fun w => contains w s) ws.

End PyStr.

Import PyStr.

(** ** Numbers *)

Module PyNum.

(** A Python number: [int] or [float]. *)
Inductive num := Int (n : Z) | Float (q : Q).

Definition val (x : num) : Q :=
  match x with Int n => inject_Z n | Float q => q end.

Definition Qltb (a b : Q) : bool :=
  match (a ?= b)%Q with Lt => true | _ => false end.

(** [min(a, b)] keeps [a] unless [b < a]; [max(a, b)] keeps [a] unless
    [b > a]. *)
Definition py_min (a b : num) : num := if Qltb (val b) (val a) then b else a.
Definition py_max (a b : num) : num := if Qltb (val a) (val b) then b else a.

(** Round to the nearest integer, ties to the even one. *)
Definition round_half_even (x : Q) : Z :=
  let f := Qfloor x in
  match (x - inject_Z f ?= 1 # 2)%Q with
  | Lt => f
  | Gt => f + 1
  | Eq => if Z.even f then f else f + 1
  end.

(** [round(x, 1)]: a float is rounded to one decimal, an int is returned
    as it is. *)
Definition round1 (q : Q) : Q := (inject_Z (round_half_even (q * 10)) / 10)%Q.

Definition py_round1 (x : num) : num :=
  match x with Int n => Int n | Float q => Float (round1 q) end.

(** [a / b] on ints; [None] is ZeroDivisionError. *)
Definition truediv (a b : Z) : option Q :=
  if b =? 0 then None else Some (inject_Z a / inject_Z b)%Q.

End PyNum.

Import PyNum.

(** ** Result dictionaries *)

Inductive value :=
| VNum (x : num)
| VList (l : list string).

(** ** backend/server.py *)

Module Backend.

Definition confident_words : list (list N) :=
  map lit ["confident"; "definitely"; "certainly"; "absolutely"; "experienced"]%string.
Definition hedging_words : list (list N) :=
  map lit ["maybe"; "perhaps"; "might"; "possibly"; "kind of"; "sort of"]%string.
Definition structure_words : list (list N) :=
  map lit ["first"; "second"; "third"; "finally"; "additionally"; "furthermore"]%string.
Definition common_words : gset (list N) :=
  list_to_set (map lit ["a"; "an"; "the"; "is"; "are"; "was"; "were"; "in";
                        "on"; "at"; "to"; "for"]%string).
Definition example_indicators : list (list N) :=
  map lit ["example"; "instance"; "experience"; "project"; "time when"; "situation"]%string.
Definition star_words : list (list N) :=
  map lit ["situation"; "task"; "action"; "result"]%string.

Definition msg_assertive : string :=
  "Use more assertive language and reduce hedging words (maybe, possibly, etc.)".
Definition msg_confident : string := "Great confidence in your delivery!".
Definition msg_fillers : string :=
  "Reduce filler words (um, uh, like) for better clarity".
Definition msg_long_sentences : string :=
  "Try breaking down long sentences into shorter ones for better clarity".
Definition msg_short_sentences : string :=
  "Consider expanding your sentences with more details".
Definition msg_transitions : string :=
  "Use transitional phrases (first, second, additionally) to structure your response".
Definition msg_relevance : string :=
  "Focus more on directly answering the question asked".
Definition msg_detail : string :=
  "Provide more detailed responses with specific examples".
Definition msg_concise : string := "Keep responses more concise and focused".
Definition msg_star : string :=
  "Consider using the STAR method: Situation, Task, Action, Result".
Definition msg_default : string := "Excellent response! Keep up the good work.".

(** Lines 46-48. *)
Definition word_count (transcript : list N) : Z := len (split_ws transcript).

Definition sentence_count (transcript : list N) : Z :=
  len (filter (fun s => truthy (strip s) = true) (split 46 transcript)).

(** Lines 51-69: the confidence score before the clamp. *)
Definition confidence_unclamped (transcript : list N) : Q :=
  let word_count := word_count transcript in
  let confidence_score := 5%Q in
  let confidence_count := count_if_in confident_words (lower transcript) in
  let hedging_count := count_if_in hedging_words (lower transcript) in
  let confidence_score := (confidence_score + inject_Z confidence_count * 0.5)%Q in
  let confidence_score := (confidence_score - inject_Z hedging_count * 0.5)%Q in
  if (50 <=? word_count) && (word_count <=? 150) then (confidence_score + 2)%Q
  else if word_count <? 30 then (confidence_score - 1)%Q
  else confidence_score.

(** Line 72. *)
Definition avg_words_per_sentence (transcript : list N) : option Q :=
  truediv (word_count transcript) (Z.max (sentence_count transcript) 1).

(** Line 79. *)
Definition fillers (transcript : list N) : Z :=
  count (lit "um") (lower transcript) + count (lit "uh") (lower transcript)
  + count (lit "like") (lower transcript).

(** Line 84. *)
Definition structure_count (transcript : list N) : Z :=
  count_if_in structure_words (lower transcript).

(** Lines 52, 75-85: the clarity score before the clamp, given the
    average of line 72. *)
Definition clarity_unclamped (transcript : list N) (avg_words_per_sentence : Q) : Q :=
  let clarity_score := 5%Q in
  let clarity_score :=
    if Qle_bool 12 avg_words_per_sentence && Qle_bool avg_words_per_sentence 22
    then (clarity_score + 2)%Q else clarity_score in
  let fillers := fillers transcript in
  let clarity_score :=
    (clarity_score - val (py_min (Float (inject_Z fillers * 0.3)) (Int 3)))%Q in
  let structure_count := structure_count transcript in
  (clarity_score + val (py_min (Float (inject_Z structure_count * 0.5)) (Int 2)))%Q.

(** Lines 88-96. *)
Definition overlap (transcript question : list N) : Z :=
  let question_words : gset (list N) := list_to_set (split_ws (lower question)) in
  let transcript_words : gset (list N) := list_to_set (split_ws (lower transcript)) in
  let question_words := question_words ∖ common_words in
  Z.of_nat (size (question_words ∩ transcript_words)).

(** Lines 53, 88-102: the relevance score before the clamp. *)
Definition relevance_unclamped (transcript question : list N) : Q :=
  let relevance_score := 5%Q in
  let overlap := overlap transcript question in
  let relevance_score :=
    (relevance_score + val (py_min (Float (inject_Z overlap * 0.7)) (Int 3)))%Q in
  if any_in example_indicators (lower transcript)
  then (relevance_score + 1.5)%Q else relevance_score.

(** Lines 105-107. *)
Definition clamp (score : Q) : num := py_min (py_max (Float score) (Int 0)) (Int 10).

(** Lines 110-146. *)
Definition make_feedback (transcript : list N) (confidence_score relevance_score : num)
    (avg_words_per_sentence : Q) : list string :=
  let word_count := word_count transcript in
  let feedback := [] in
  let feedback :=
    if Qltb (val confidence_score) 6 then feedback ++ [msg_assertive]
    else if Qltb 8 (val confidence_score) then feedback ++ [msg_confident]
    else feedback in
  let feedback :=
    if 5 <? fillers transcript then feedback ++ [msg_fillers] else feedback in
  let feedback :=
    if Qltb 25 avg_words_per_sentence then feedback ++ [msg_long_sentences]
    else if Qltb avg_words_per_sentence 10 then feedback ++ [msg_short_sentences]
    else feedback in
  let feedback :=
    if structure_count transcript =? 0 then feedback ++ [msg_transitions]
    else feedback in
  let feedback :=
    if Qltb (val relevance_score) 6 then feedback ++ [msg_relevance] else feedback in
  let feedback :=
    if word_count <? 50 then feedback ++ [msg_detail]
    else if 200 <? word_count then feedback ++ [msg_concise]
    else feedback in
  let feedback :=
    if negb (any_in star_words (lower transcript)) then feedback ++ [msg_star]
    else feedback in
  match feedback with
  | [] => feedback ++ [msg_default]
  | _ => feedback
  end.

(** [analyze_text], lines 42-155. *)
Definition analyze_text (transcript question : list N) : option (gmap string value) :=
  let word_count := word_count transcript in
  let sentence_count := sentence_count transcript in
  let confidence_score := confidence_unclamped transcript in
  avg_words_per_sentence ← avg_words_per_sentence transcript;
  let clarity_score := clarity_unclamped transcript avg_words_per_sentence in
  let relevance_score := relevance_unclamped transcript question in
  let confidence_score := clamp confidence_score in
  let clarity_score := clamp clarity_score in
  let relevance_score := clamp relevance_score in
  let feedback :=
    make_feedback transcript confidence_score relevance_score avg_words_per_sentence in
  Some (<["confidence_score" := VNum (py_round1 confidence_score)]>
       (<["clarity_score" := VNum (py_round1 clarity_score)]>
       (<["relevance_score" := VNum (py_round1 relevance_score)]>
       (<["word_count" := VNum (Int word_count)]>
       (<["sentence_count" := VNum (Int sentence_count)]>
       (<["feedback" := VList feedback]> ∅)))))).

End Backend.

(** ** frontend/app.py *)

Module Frontend.

Definition msg_more_detail : string :=
  "💡 Try to provide more detailed responses (aim for 50-150 words)".
Definition msg_more_concise : string :=
  "💡 Consider being more concise in your answers".
Definition msg_good_length : string := "✅ Good response length!".
Definition msg_structure : string := "✅ Good structure and delivery".
Definition msg_star_method : string :=
  "💡 Consider using the STAR method (Situation, Task, Action, Result)".
Definition msg_tone : string :=
  "🎯 Practice maintaining confident tone throughout".

(** [mock_analysis], lines 81-109. *)
Definition mock_analysis (transcript question : list N) : option (gmap string value) :=
  let word_count := len (split_ws transcript) in
  quotient ← truediv word_count 15;
  let confidence_score := py_min (Int 10) (py_max (Int 5) (Float quotient)) in
  let clarity_score :=
    py_min (Int 10) (Int (7 + (if 2 <? len (split 46 transcript) then 1 else 0))) in
  let relevance_score :=
    py_min (Int 10)
      (Int (6 + (if existsb (fun word => contains word (lower transcript))
                      (split_ws (lower question))
                 then 2 else 0))) in
  let feedback := [] in
  let feedback :=
    if word_count <? 30 then feedback ++ [msg_more_detail]
    else if 200 <? word_count then feedback ++ [msg_more_concise]
    else feedback ++ [msg_good_length] in
  let feedback := feedback ++ [msg_structure] in
  let feedback := feedback ++ [msg_star_method] in
  let feedback := feedback ++ [msg_tone] in
  Some (<["confidence_score" := VNum (py_round1 confidence_score)]>
       (<["clarity_score" := VNum (py_round1 clarity_score)]>
       (<["relevance_score" := VNum (py_round1 relevance_score)]>
       (<["word_count" := VNum (Int word_count)]>
       (<["feedback" := VList feedback]> ∅))))).

End Frontend.

Import Backend.

(** * Facts about the string primitives *)

Section StringFacts.

Implicit Types (s p sub cur : list N) (ws : list (list N)).

Definition nonspace (c : N) : bool := negb (isspace c).

(** [sub] occurs in [s] as a substring. *)
Definition occurs_in (sub s : list N) : Prop :=
  ∃ pre post, s = pre ++ sub ++ post.

Lemma startswith_spec p s : startswith p s = true ↔ ∃ post, s = p ++ post.
Proof.
  revert s; induction p as [|a p IH]; intros [|b s]; simpl.
  - split; [by exists [] | done].
  - split; [by exists (b :: s) | done].
  - split; [done | by intros [post ?]].
  - rewrite andb_true_iff, N.eqb_eq, IH. split.
    + intros [-> [post ->]]. by exists post.
    + intros [post [= -> ->]]. split; [done | by exists post].
Qed.

Lemma contains_spec sub s : contains sub s = true ↔ occurs_in sub s.
Proof.
  unfold occurs_in. induction s as [|c s IH]; simpl.
  - rewrite orb_false_r, startswith_spec. split.
    + intros [post ->]. by exists [], post.
    + intros (pre & post & H). destruct pre as [|? ?]; [|done]. by exists post.
  - rewrite orb_true_iff, startswith_spec, IH. split.
    + intros [[post H] | (pre & post & H)].
      * by exists [], post.
      * exists (c :: pre), post. by rewrite H.
    + intros (pre & post & H). destruct pre as [|c' pre]; simpl in H.
      * left. by exists post.
      * right. injection H as <- ->. by exists pre, post.
Qed.

#[global] Instance occurs_in_dec sub s : Decision (occurs_in sub s).
Proof.
  refine (cast_if (decide (contains sub s = true))); by rewrite <- contains_spec.
Defined.

(** The number of members of [ws] that occur in [s]. *)
Definition members_occurring ws s : nat :=
  length (filter (fun w => occurs_in w s) ws).

Lemma count_if_in_from ws s (acc : Z) :
  foldl (fun acc w => if contains w s then acc + 1 else acc) acc ws
  = acc + Z.of_nat (members_occurring ws s).
Proof.
  unfold members_occurring. revert acc.
  induction ws as [|w ws IH]; intros acc; simpl; [lia|].
  rewrite IH, filter_cons. destruct (contains w s) eqn:E.
  - rewrite decide_True by by apply contains_spec. simpl. lia.
  - rewrite decide_False; [done|]. rewrite <- contains_spec. congruence.
Qed.

Lemma count_if_in_members ws s :
  count_if_in ws s = Z.of_nat (members_occurring ws s).
Proof. unfold count_if_in. by rewrite count_if_in_from. Qed.

Lemma count_if_in_bounds ws s : 0 <= count_if_in ws s <= len ws.
Proof.
  rewrite count_if_in_members. unfold members_occurring, len.
  pose proof (length_filter (fun w => occurs_in w s) ws). lia.
Qed.

Lemma any_in_spec ws s :
  any_in ws s = true ↔ ∃ w, w ∈ ws ∧ occurs_in w s.
Proof.
  unfold any_in. rewrite existsb_exists. split.
  - intros (w & Hin & Hc). exists w. by rewrite list_elem_of_In, <- contains_spec.
  - intros (w & Hin & Hc). exists w. by rewrite <- list_elem_of_In, contains_spec.
Qed.

Lemma count_from_nonneg sub skip s : 0 <= count_from sub skip s.
Proof.
  revert skip. induction s as [|c s IH]; intros skip; simpl; [lia|].
  destruct skip as [|k]; [|apply IH].
  destruct (startswith sub (c :: s)); [|apply IH].
  specialize (IH (length sub - 1)%nat). lia.
Qed.

Lemma count_nonneg sub s : 0 <= count sub s.
Proof.
  destruct sub as [|a sub]; simpl; [unfold len; lia|]. apply count_from_nonneg.
Qed.

(** *** Whitespace splitting *)

(** Tokens of [s], counted at their first character: a character that is
    not whitespace and does not continue a token. *)
Fixpoint count_tokens (in_token : bool) (s : list N) : nat :=
  match s with
  | [] => 0
  | c :: s' =>
      if isspace c then count_tokens false s'
      else (if in_token then 0 else 1) + count_tokens true s'
  end.

Lemma length_split_ws_from cur s :
  length (split_ws_from cur s)
  = (count_tokens (truthy cur) s + if truthy cur then 1 else 0)%nat.
Proof.
  revert cur. induction s as [|c s IH]; intros cur; simpl.
  - by destruct cur.
  - destruct (isspace c).
    + destruct cur; simpl; rewrite IH; simpl; lia.
    + rewrite IH. simpl. destruct cur; simpl; lia.
Qed.

Lemma length_split_ws s : length (split_ws s) = count_tokens false s.
Proof. unfold split_ws. rewrite length_split_ws_from. simpl. lia. Qed.

Lemma forallb_rev {A} (f : A → bool) (l : list A) :
  forallb f (rev l) = forallb f l.
Proof.
  induction l as [|a l IH]; [done|]. simpl.
  rewrite forallb_app, IH. simpl. rewrite andb_true_r. apply andb_comm.
Qed.

Lemma split_ws_from_tokens cur s :
  forallb nonspace cur = true →
  Forall (fun t => t ≠ [] ∧ forallb nonspace t = true) (split_ws_from cur s).
Proof.
  revert cur. induction s as [|c s IH]; intros cur Hcur; simpl.
  - destruct cur as [|a cur]; [constructor|].
    constructor; [|constructor]. split.
    + intros H%(f_equal length). rewrite length_rev in H. done.
    + by rewrite forallb_rev.
  - destruct (isspace c) eqn:E.
    + destruct cur as [|a cur]; [by apply IH|].
      constructor; [|by apply IH]. split.
      * intros H%(f_equal length). rewrite length_rev in H. done.
      * by rewrite forallb_rev.
    + apply IH. simpl. unfold nonspace at 1. by rewrite E.
Qed.

(** Every token is non-empty and free of whitespace. *)
Lemma split_ws_tokens s :
  Forall (fun t => t ≠ [] ∧ forallb nonspace t = true) (split_ws s).
Proof. by apply split_ws_from_tokens. Qed.

Lemma concat_split_ws_from cur s :
  concat (split_ws_from cur s) = rev cur ++ List.filter nonspace s.
Proof.
  revert cur. induction s as [|c s IH]; intros cur; simpl.
  - destruct cur; simpl; by rewrite ?app_nil_r.
  - unfold nonspace at 1. destruct (isspace c); simpl.
    + destruct cur; simpl; by rewrite IH.
    + rewrite IH. simpl. by rewrite <- app_assoc.
Qed.

(** The tokens are the non-whitespace characters of [s], in order. *)
Lemma concat_split_ws s : concat (split_ws s) = List.filter nonspace s.
Proof. unfold split_ws. by rewrite concat_split_ws_from. Qed.

(** *** Splitting on a character, stripping *)

Lemma truthy_rev s : truthy (rev s) = truthy s.
Proof.
  destruct s as [|a s]; [done|]. simpl. by destruct (rev s).
Qed.

Lemma existsb_rev {A} (f : A → bool) (l : list A) :
  existsb f (rev l) = existsb f l.
Proof.
  induction l as [|a l IH]; [done|]. simpl.
  rewrite existsb_app, IH. simpl. rewrite orb_false_r. apply orb_comm.
Qed.

Lemma truthy_lstrip s : truthy (lstrip s) = existsb nonspace s.
Proof.
  induction s as [|c s IH]; [done|]. simpl. unfold nonspace at 1.
  by destruct (isspace c).
Qed.

Lemma existsb_lstrip s : existsb nonspace (lstrip s) = existsb nonspace s.
Proof.
  induction s as [|c s IH]; [done|]. simpl. unfold nonspace at 2.
  destruct (isspace c) eqn:E; [done|]. simpl. unfold nonspace at 1. by rewrite E.
Qed.

(** A string is non-empty after stripping iff it has a character that is
    not whitespace. *)
Lemma truthy_strip s : truthy (strip s) = existsb nonspace s.
Proof.
  unfold strip, rstrip.
  by rewrite truthy_rev, truthy_lstrip, existsb_rev, existsb_lstrip.
Qed.

Lemma length_split_from sep cur s :
  length (split_from sep cur s)
  = S (length (List.filter (fun c => (c =? sep)%N) s)).
Proof.
  revert cur. induction s as [|c s IH]; intros cur; simpl; [done|].
  destruct (c =? sep)%N; simpl; by rewrite IH.
Qed.

(** Segments between periods that hold a character other than whitespace;
    [seen] tells whether the segment being read already holds one. *)
Fixpoint count_sentences (seen : bool) (s : list N) : nat :=
  match s with
  | [] => if seen then 1 else 0
  | c :: s' =>
      if (c =? 46)%N then (if seen then 1 else 0) + count_sentences false s'
      else count_sentences (seen || nonspace c) s'
  end.

Lemma length_filter_split_from cur s :
  length (filter (fun t => truthy (strip t) = true) (split_from 46 cur s))
  = count_sentences (existsb nonspace cur) s.
Proof.
  revert cur. induction s as [|c s IH]; intros cur; simpl.
  - rewrite filter_cons, truthy_strip, existsb_rev.
    destruct (existsb nonspace cur); by simpl.
  - destruct (c =? 46)%N.
    + rewrite filter_cons, truthy_strip, existsb_rev.
      destruct (existsb nonspace cur); simpl; by rewrite IH.
    + rewrite IH. simpl. by rewrite orb_comm.
Qed.

End StringFacts.

(** * Facts about the numeric primitives *)

Section NumFacts.

Implicit Types (a b : num) (q x : Q) (n : Z).

Lemma Qltb_lt x q : Qltb x q = true ↔ (x < q)%Q.
Proof.
  unfold Qltb. rewrite Qlt_alt. destruct (x ?= q)%Q; split; congruence.
Qed.

Lemma Qltb_ge x q : Qltb x q = false ↔ (q <= x)%Q.
Proof.
  rewrite <- not_true_iff_false, Qltb_lt. split; [apply Qnot_lt_le | apply Qle_not_lt].
Qed.

Lemma val_py_min a b : (val (py_min a b) == Qmin (val a) (val b))%Q.
Proof.
  unfold py_min. destruct (Qltb (val b) (val a)) eqn:E.
  - apply Qltb_lt in E. symmetry. apply Q.min_r. lra.
  - apply Qltb_ge in E. symmetry. by apply Q.min_l.
Qed.

Lemma val_py_max a b : (val (py_max a b) == Qmax (val a) (val b))%Q.
Proof.
  unfold py_max. destruct (Qltb (val a) (val b)) eqn:E.
  - apply Qltb_lt in E. symmetry. apply Q.max_r. lra.
  - apply Qltb_ge in E. symmetry. by apply Q.max_l.
Qed.

(** [min(x, k)] on a float [x] and an int bound [k]. *)
Lemma py_min_bound x n :
  (val (py_min (Float x) (Int n)) <= x)%Q
  ∧ (val (py_min (Float x) (Int n)) <= inject_Z n)%Q
  ∧ ((0 <= x)%Q → 0 <= n → (0 <= val (py_min (Float x) (Int n)))%Q).
Proof.
  unfold py_min. simpl. destruct (Qltb (inject_Z n) x) eqn:E; simpl.
  - apply Qltb_lt in E. repeat split; [lra | lra |].
    intros _ Hn. by apply (Qle_trans _ (inject_Z 0)); [|rewrite <- Zle_Qle].
  - apply Qltb_ge in E. repeat split; [lra | lra | done].
Qed.

Lemma clamp_range q : (0 <= val (clamp q) <= 10)%Q.
Proof.
  unfold clamp, py_min, py_max. simpl.
  destruct (Qltb q (inject_Z 0)) eqn:E0; simpl.
  - split; vm_compute; discriminate.
  - apply Qltb_ge in E0.
    destruct (Qltb (inject_Z 10) q) eqn:E1; simpl.
    + split; vm_compute; discriminate.
    + apply Qltb_ge in E1. change (inject_Z 0) with 0%Q in E0.
      change (inject_Z 10) with 10%Q in E1. lra.
Qed.

(** The clamp leaves a score of the closed interval as it is. *)
Lemma clamp_id q : (0 <= q <= 10)%Q → clamp q = Float q.
Proof.
  intros [H0 H1]. unfold clamp, py_min, py_max. simpl.
  assert (Qltb q (inject_Z 0) = false) as -> by by apply Qltb_ge.
  simpl. by assert (Qltb (inject_Z 10) q = false) as -> by by apply Qltb_ge.
Qed.

Lemma round_half_even_cases x :
  round_half_even x = Qfloor x
  ∨ (round_half_even x = Qfloor x + 1 ∧ (1 # 2 <= x - inject_Z (Qfloor x))%Q).
Proof.
  unfold round_half_even.
  destruct (x - inject_Z (Qfloor x) ?= 1 # 2)%Q eqn:E.
  - apply Qeq_alt in E. destruct (Z.even (Qfloor x)); [by left|].
    right. split; [done|]. rewrite E. apply Qle_refl.
  - by left.
  - right. split; [done|]. apply Qgt_alt in E. by apply Qlt_le_weak.
Qed.

Lemma round_half_even_int x n : (x == inject_Z n)%Q → round_half_even x = n.
Proof.
  intros H. assert (Qfloor x = n) as Hf by (rewrite H; apply Qfloor_Z).
  destruct (round_half_even_cases x) as [->|[_ Hge]]; [done|].
  rewrite Hf, H in Hge. lra.
Qed.

Lemma inject_Z_div_10 n : (inject_Z n / 10 == n # 10)%Q.
Proof. unfold Qeq. simpl. lia. Qed.

Lemma round1_tenths q : ∃ n, (round1 q == n # 10)%Q.
Proof. eexists. apply inject_Z_div_10. Qed.

Lemma round1_id q n : (q == n # 10)%Q → (round1 q == q)%Q.
Proof.
  intros H. unfold round1. rewrite (round_half_even_int _ n).
  - by rewrite inject_Z_div_10.
  - rewrite H. unfold Qeq. simpl. lia.
Qed.

Lemma round1_range q : (0 <= q <= 10)%Q → (0 <= round1 q <= 10)%Q.
Proof.
  intros [H0 H1]. unfold round1. set (x := (q * 10)%Q).
  assert (0 <= x <= 100)%Q as [Hx0 Hx1] by (unfold x; lra).
  pose proof (Qfloor_resp_le _ _ Hx0) as Hf0.
  pose proof (Qfloor_resp_le _ _ Hx1) as Hf1.
  change (Qfloor 0) with 0 in Hf0. change (Qfloor 100) with 100 in Hf1.
  assert (0 <= round_half_even x <= 100) as [Hr0 Hr1].
  { destruct (round_half_even_cases x) as [->|[-> Hge]]; [lia|].
    split; [lia|]. destruct (decide (Qfloor x = 100)) as [E|]; [|lia].
    rewrite E in Hge. change (inject_Z 100) with 100%Q in Hge. lra. }
  rewrite inject_Z_div_10. unfold Qle. simpl. lia.
Qed.

Lemma truediv_some n m : m ≠ 0 → truediv n m = Some (inject_Z n / inject_Z m)%Q.
Proof. intros H. unfold truediv. by rewrite (proj2 (Z.eqb_neq m 0)). Qed.

End NumFacts.

(** * Facts about the sub-scores of [analyze_text] *)

Section ScoreFacts.

Implicit Types (T Qn : list N) (q avg : Q).

(** A rational with one decimal place. *)
Definition one_decimal (q : Q) : Prop := ∃ n : Z, (q == n # 10)%Q.

Lemma one_decimal_int (n : Z) : one_decimal (inject_Z n).
Proof. exists (10 * n). unfold Qeq. simpl. lia. Qed.

Lemma one_decimal_tenths (n m : Z) : one_decimal (inject_Z n * (m # 10)).
Proof. exists (n * m). unfold Qeq. simpl. lia. Qed.

Lemma one_decimal_plus q1 q2 : one_decimal q1 → one_decimal q2 → one_decimal (q1 + q2).
Proof.
  intros [n1 H1] [n2 H2]. exists (n1 + n2). rewrite H1, H2.
  unfold Qeq. simpl. lia.
Qed.

Lemma one_decimal_minus q1 q2 : one_decimal q1 → one_decimal q2 → one_decimal (q1 - q2).
Proof.
  intros [n1 H1] [n2 H2]. exists (n1 - n2). rewrite H1, H2.
  unfold Qeq. simpl. lia.
Qed.

Lemma one_decimal_py_min q (n : Z) :
  one_decimal q → one_decimal (val (py_min (Float q) (Int n))).
Proof.
  intros H. unfold py_min. destruct (Qltb _ _); simpl; [apply one_decimal_int | done].
Qed.

Lemma inject_Z_bounds (lo n hi : Z) :
  lo <= n <= hi → (inject_Z lo <= inject_Z n <= inject_Z hi)%Q.
Proof. intros [? ?]. by rewrite <- !Zle_Qle. Qed.

(** *** Confidence *)

Lemma confidence_unclamped_range T : (1 <= confidence_unclamped T <= 9.5)%Q.
Proof.
  unfold confidence_unclamped.
  pose proof (inject_Z_bounds _ _ _ (count_if_in_bounds confident_words (lower T))) as [Hc0 Hc1].
  pose proof (inject_Z_bounds _ _ _ (count_if_in_bounds hedging_words (lower T))) as [Hh0 Hh1].
  change (inject_Z 0) with 0%Q in *.
  change (inject_Z (len confident_words)) with 5%Q in Hc1.
  change (inject_Z (len hedging_words)) with 6%Q in Hh1.
  destruct (_ && _); [lra|]. destruct (_ <? _); lra.
Qed.

Lemma confidence_unclamped_one_decimal T : one_decimal (confidence_unclamped T).
Proof.
  unfold confidence_unclamped.
  assert (one_decimal (5 + inject_Z (count_if_in confident_words (lower T)) * 0.5
                       - inject_Z (count_if_in hedging_words (lower T)) * 0.5)) as H.
  { apply one_decimal_minus; [apply one_decimal_plus|].
    - apply (one_decimal_int 5).
    - apply one_decimal_tenths.
    - apply one_decimal_tenths. }
  destruct (_ && _); [|destruct (_ <? _)]; [| |done].
  - apply one_decimal_plus; [done | apply (one_decimal_int 2)].
  - apply one_decimal_minus; [done | apply (one_decimal_int 1)].
Qed.

(** *** Clarity *)

Lemma fillers_nonneg T : 0 <= fillers T.
Proof.
  unfold fillers.
  pose proof (count_nonneg (lit "um") (lower T)).
  pose proof (count_nonneg (lit "uh") (lower T)).
  pose proof (count_nonneg (lit "like") (lower T)). lia.
Qed.

Lemma structure_count_bounds T : 0 <= structure_count T <= 6.
Proof. apply (count_if_in_bounds structure_words). Qed.

Lemma clarity_unclamped_range T avg : (2 <= clarity_unclamped T avg <= 9)%Q.
Proof.
  unfold clarity_unclamped.
  pose proof (inject_Z_bounds 0 _ _ (conj (fillers_nonneg T) (Z.le_refl _))) as [Hf _].
  pose proof (inject_Z_bounds _ _ _ (structure_count_bounds T)) as [Hs0 _].
  change (inject_Z 0) with 0%Q in *.
  destruct (py_min_bound (inject_Z (fillers T) * 0.3) 3) as (_ & Hf3 & Hf0).
  destruct (py_min_bound (inject_Z (structure_count T) * 0.5) 2) as (_ & Hs2 & Hs).
  change (inject_Z 3) with 3%Q in *. change (inject_Z 2) with 2%Q in *.
  assert (0 <= val (py_min (Float (inject_Z (fillers T) * 0.3)) (Int 3)))%Q
    by (apply Hf0; [lra | lia]).
  assert (0 <= val (py_min (Float (inject_Z (structure_count T) * 0.5)) (Int 2)))%Q
    by (apply Hs; [lra | lia]).
  destruct (_ && _); lra.
Qed.

Lemma clarity_unclamped_one_decimal T avg : one_decimal (clarity_unclamped T avg).
Proof.
  unfold clarity_unclamped.
  apply one_decimal_plus; [apply one_decimal_minus|].
  - destruct (_ && _); [apply (one_decimal_int 7) | apply (one_decimal_int 5)].
  - apply one_decimal_py_min, one_decimal_tenths.
  - apply one_decimal_py_min, one_decimal_tenths.
Qed.

(** *** Relevance *)

Lemma overlap_nonneg T Qn : 0 <= overlap T Qn.
Proof. unfold overlap. lia. Qed.

Lemma relevance_unclamped_range T Qn : (5 <= relevance_unclamped T Qn <= 9.5)%Q.
Proof.
  unfold relevance_unclamped.
  pose proof (inject_Z_bounds 0 _ _ (conj (overlap_nonneg T Qn) (Z.le_refl _))) as [Ho _].
  change (inject_Z 0) with 0%Q in *.
  destruct (py_min_bound (inject_Z (overlap T Qn) * 0.7) 3) as (_ & H3 & H0).
  change (inject_Z 3) with 3%Q in *.
  assert (0 <= val (py_min (Float (inject_Z (overlap T Qn) * 0.7)) (Int 3)))%Q
    by (apply H0; [lra | lia]).
  destruct (any_in _ _); lra.
Qed.

Lemma relevance_unclamped_one_decimal T Qn : one_decimal (relevance_unclamped T Qn).
Proof.
  unfold relevance_unclamped.
  assert (one_decimal (5 + val (py_min (Float (inject_Z (overlap T Qn) * 0.7)) (Int 3)))).
  { apply one_decimal_plus; [apply (one_decimal_int 5)|].
    apply one_decimal_py_min, one_decimal_tenths. }
  destruct (any_in _ _); [|done].
  apply one_decimal_plus; [done | apply (one_decimal_tenths 1 15)].
Qed.

End ScoreFacts.

(** * The result of [analyze_text] *)

Section ResultFacts.

Implicit Types (T Qn : list N) (r : gmap string value).

Lemma divisor_nonzero T : Z.max (sentence_count T) 1 ≠ 0.
Proof. lia. Qed.

(** The value of line 72. *)
Definition avg_of T : Q :=
  (inject_Z (word_count T) / inject_Z (Z.max (sentence_count T) 1))%Q.

Lemma avg_words_per_sentence_some T : avg_words_per_sentence T = Some (avg_of T).
Proof. apply truediv_some, divisor_nonzero. Qed.

(** The clamped scores of lines 105-107 and the feedback of lines 110-146. *)
Definition confidence_clamped T : num := clamp (confidence_unclamped T).
Definition clarity_clamped T : num := clamp (clarity_unclamped T (avg_of T)).
Definition relevance_clamped T Qn : num := clamp (relevance_unclamped T Qn).
Definition feedback_of T Qn : list string :=
  make_feedback T (confidence_clamped T) (relevance_clamped T Qn) (avg_of T).

Definition result_keys : gset string :=
  {[ "confidence_score"; "clarity_score"; "relevance_score"; "word_count";
     "sentence_count"; "feedback" ]}%string.

Lemma analyze_text_result T Qn :
  ∃ r, analyze_text T Qn = Some r
     ∧ r !! "confidence_score"%string = Some (VNum (py_round1 (confidence_clamped T)))
     ∧ r !! "clarity_score"%string = Some (VNum (py_round1 (clarity_clamped T)))
     ∧ r !! "relevance_score"%string = Some (VNum (py_round1 (relevance_clamped T Qn)))
     ∧ r !! "word_count"%string = Some (VNum (Int (word_count T)))
     ∧ r !! "sentence_count"%string = Some (VNum (Int (sentence_count T)))
     ∧ r !! "feedback"%string = Some (VList (feedback_of T Qn))
     ∧ dom r = result_keys.
Proof.
  unfold analyze_text. rewrite avg_words_per_sentence_some. simpl.
  eexists. split; [reflexivity|]. repeat split.
Qed.



(** A score that is within the interval and has one decimal goes through
    the clamp and the rounding unchanged. *)
Lemma py_round1_clamp_id (q : Q) :
  (0 <= q <= 10)%Q → one_decimal q →
  ∃ q', py_round1 (clamp q) = Float q' ∧ (q' == q)%Q.
Proof.
  intros Hq [n Hn]. rewrite clamp_id by done. simpl.
  eexists. split; [reflexivity|]. by apply (round1_id _ n).
Qed.

Lemma make_feedback_nonempty T (c r : num) (avg : Q) : make_feedback T c r avg ≠ [].
Proof.
  unfold make_feedback.
  match goal with |- (match ?l with [] => _ | _ => _ end) ≠ _ => by destruct l end.
Qed.

End ResultFacts.

(** * The properties of the specification *)

Definition score_fields : list string :=
  ["confidence_score"; "clarity_score"; "relevance_score"]%string.


(** A result with the six fields of the dictionary built at lines 148-155,
    each of its type. *)
Definition well_formed (r : gmap string value) : Prop :=
  dom r = result_keys
  ∧ (∀ k, k ∈ score_fields → ∃ x, r !! k = Some (VNum x))
  ∧ (∃ n, r !! "word_count"%string = Some (VNum (Int n)) ∧ 0 <= n)
  ∧ (∃ n, r !! "sentence_count"%string = Some (VNum (Int n)) ∧ 0 <= n)
  ∧ (∃ l, r !! "feedback"%string = Some (VList l)).

(** C2: [analyze_text] is total: for every pair of strings, the empty ones
    included, it returns a well-formed result and raises nothing; the
    divisor max(sentence_count, 1) of the average is never zero, so the
    division succeeds. *)
Theorem analyze_text_total (transcript question : list N) :
  Z.max (sentence_count transcript) 1 ≠ 0
  ∧ is_Some (avg_words_per_sentence transcript)
  ∧ ∃ r, analyze_text transcript question = Some r ∧ well_formed r.
Proof.
  split; [apply divisor_nonzero|]. split.
  { rewrite avg_words_per_sentence_some. by eexists. }
  destruct (analyze_text_result transcript question)
    as (r & Hr & Hc & Hcl & Hre & Hw & Hs & Hf & Hd).
  exists r. split; [done|]. repeat split.
  - done.
  - intros k Hk. unfold score_fields in Hk.
    repeat (apply elem_of_cons in Hk as [-> | Hk]); [| | |by apply elem_of_nil in Hk];
      by eexists.
  - eexists. split; [done|]. unfold word_count, len. lia.
  - eexists. split; [done|]. unfold sentence_count, len. lia.
  - by eexists.
Qed.

(** C3: for every input, word_count is the number of whitespace-delimited
    tokens of the transcript and sentence_count is the number of segments
    between periods that are non-empty after stripping whitespace; both are
    returned as these integers, unchanged. *)
Theorem analyze_text_counts (transcript question : list N) :
  ∃ r, analyze_text transcript question = Some r
     ∧ r !! "word_count"%string
       = Some (VNum (Int (Z.of_nat (count_tokens false transcript))))
     ∧ r !! "sentence_count"%string
       = Some (VNum (Int (Z.of_nat (count_sentences false transcript)))).
Proof.
  destruct (analyze_text_result transcript question)
    as (r & Hr & _ & _ & _ & Hw & Hs & _).
  exists r. split; [done|]. split.
  - rewrite Hw. unfold word_count, len. by rewrite length_split_ws.
  - rewrite Hs. unfold sentence_count, len, split.
    by rewrite length_filter_split_from.
Qed.

(** ** The score formulas *)

Section Formulas.

Implicit Types (T Qn : list N).

(** The length adjustment of the confidence score. *)
Definition length_adjustment (word_count : Z) : Q :=
  if decide (50 <= word_count <= 150) then 2
  else if decide (word_count < 30) then -1
  else 0.

(** The confidence score as the specification words it: one half point
    up for each confident word that occurs in the lowercased transcript,
    one half point down for each hedging word that occurs, and the length
    adjustment. *)
Definition spec_confidence T : Q :=
  5 + inject_Z (Z.of_nat (members_occurring confident_words (lower T))) * 0.5
    - inject_Z (Z.of_nat (members_occurring hedging_words (lower T))) * 0.5
    + length_adjustment (word_count T).

Lemma confident_words_NoDup : NoDup confident_words.
Proof. apply (bool_decide_unpack _). by vm_compute. Qed.

Lemma hedging_words_NoDup : NoDup hedging_words.
Proof. apply (bool_decide_unpack _). by vm_compute. Qed.

Lemma confidence_unclamped_spec T :
  (confidence_unclamped T == spec_confidence T)%Q.
Proof.
  unfold confidence_unclamped, spec_confidence, length_adjustment.
  rewrite !count_if_in_members.
  destruct (_ && _) eqn:E.
  - apply andb_true_iff in E as [E1%Z.leb_le E2%Z.leb_le].
    rewrite decide_True by done. reflexivity.
  - apply andb_false_iff in E. rewrite decide_False by lia.
    destruct (_ <? _) eqn:E'.
    + apply Z.ltb_lt in E'. rewrite decide_True by done. ring.
    + apply Z.ltb_ge in E'. rewrite decide_False by lia. ring.
Qed.

(** The stop words of the relevance score. *)
Definition stop_words : list (list N) :=
  map lit ["a"; "an"; "the"; "is"; "are"; "was"; "were"; "in"; "on"; "at";
           "to"; "for"]%string.

(** The number of distinct lowercase question words that are no stop
    words and are lowercase words of the transcript. *)
Definition spec_overlap T Qn : nat :=
  length (remove_dups
            (filter (fun w => (w ∉ stop_words) ∧ (w ∈ split_ws (lower T)))
                    (split_ws (lower Qn)))).

(** The relevance score as the specification words it. *)
Definition spec_relevance T Qn : Q :=
  5 + Qmin (inject_Z (Z.of_nat (spec_overlap T Qn)) * 0.7) 3
    + (if decide (Exists (fun w => occurs_in w (lower T)) example_indicators)
       then 1.5 else 0).

Lemma overlap_spec T Qn : overlap T Qn = Z.of_nat (spec_overlap T Qn).
Proof.
  unfold overlap, spec_overlap. f_equal.
  rewrite <- (size_list_to_set (C:=gset (list N))) by apply NoDup_remove_dups.
  f_equal. apply set_eq. intros w.
  rewrite elem_of_intersection, elem_of_difference, !elem_of_list_to_set,
    elem_of_remove_dups, list_elem_of_filter.
  unfold common_words. rewrite elem_of_list_to_set.
  change (map lit _) with stop_words. tauto.
Qed.

Lemma relevance_unclamped_spec T Qn :
  (relevance_unclamped T Qn == spec_relevance T Qn)%Q.
Proof.
  unfold relevance_unclamped, spec_relevance.
  rewrite overlap_spec.
  destruct (any_in example_indicators (lower T)) eqn:E.
  - rewrite decide_True by (apply Exists_exists; by apply any_in_spec).
    rewrite val_py_min. reflexivity.
  - rewrite decide_False by (rewrite Exists_exists, <- any_in_spec; congruence).
    rewrite val_py_min, Qplus_0_r. reflexivity.
Qed.

End Formulas.

(** C4: for every input, the confidence score before clamping is 5.0, plus
    0.5 for each of the five confident words that occurs as a substring of
    the lowercased transcript (once per word, whatever the repetitions),
    minus 0.5 for each of the six hedging words that occurs, plus 2 when
    word_count is in [50,150], minus 1 when word_count < 30. *)
Theorem confidence_before_clamp (transcript question : list N) :
  ∃ c r, (c == spec_confidence transcript)%Q
       ∧ analyze_text transcript question = Some r
       ∧ r !! "confidence_score"%string = Some (VNum (py_round1 (clamp c))).
Proof.
  destruct (analyze_text_result transcript question) as (r & Hr & Hc & _).
  exists (confidence_unclamped transcript), r.
  split; [apply confidence_unclamped_spec | by split].
Qed.

(** C5: for every input, the relevance score before clamping is 5.0, plus
    min(overlap * 0.7, 3), where overlap counts the distinct lowercase
    question words outside the stop-word set that are lowercase words of the
    transcript, plus 1.5 when one of the example indicators occurs as a
    substring of the lowercased transcript. *)
Theorem relevance_before_clamp (transcript question : list N) :
  ∃ c r, (c == spec_relevance transcript question)%Q
       ∧ analyze_text transcript question = Some r
       ∧ r !! "relevance_score"%string = Some (VNum (py_round1 (clamp c))).
Proof.
  destruct (analyze_text_result transcript question) as (r & Hr & _ & _ & Hc & _).
  exists (relevance_unclamped transcript question), r.
  split; [apply relevance_unclamped_spec | by split].
Qed.

(** ** Feedback *)

Section FeedbackFacts.

Implicit Types (T Qn : list N) (c r : num) (avg : Q).

Lemma elem_of_keep {A} (x : A) (b : bool) (l : list A) (m : A) :
  x ∈ l → x ∈ (if b then l ++ [m] else l).
Proof. destruct b; set_solver. Qed.

Lemma elem_of_keep2 {A} (x : A) (b1 b2 : bool) (l : list A) (m1 m2 : A) :
  x ∈ l → x ∈ (if b1 then l ++ [m1] else if b2 then l ++ [m2] else l).
Proof. destruct b1, b2; set_solver. Qed.

Lemma elem_of_default {A} (x d : A) (l : list A) :
  x ∈ l → x ∈ match l with [] => l ++ [d] | _ => l end.
Proof. destruct l; [by intros ?%elem_of_nil | done]. Qed.

(** More than five fillers put the filler message into the feedback. *)
Lemma make_feedback_fillers T c r avg :
  5 < fillers T → msg_fillers ∈ make_feedback T c r avg.
Proof.
  intros H. unfold make_feedback. cbv zeta.
  apply elem_of_default, elem_of_keep, elem_of_keep2, elem_of_keep,
    elem_of_keep, elem_of_keep2.
  rewrite (proj2 (Z.ltb_lt 5 (fillers T)) H). set_solver.
Qed.

(** The default message stands alone or is absent. *)
Lemma make_feedback_default T c r avg :
  make_feedback T c r avg = [msg_default] ∨ msg_default ∉ make_feedback T c r avg.
Proof.
  unfold make_feedback. cbv zeta.
  repeat match goal with
         | |- context [if ?b then _ else _] =>
             match type of b with bool => destruct b end
         end; simpl;
    first [by left | right; apply (bool_decide_unpack _); by vm_compute].
Qed.

End FeedbackFacts.

(** C10: for every input the clamp to [0,10] changes nothing: before it the
    confidence score lies in [1, 9.5], the clarity score in [2, 9] and the
    relevance score in [5, 9.5], and the scores returned are these values;
    so relevance_score is never below 5 and no score is 0 or 10. *)
Theorem analyze_text_clamp_inactive (transcript question : list N) :
  let c := confidence_unclamped transcript in
  let cl := clarity_unclamped transcript (avg_of transcript) in
  let re := relevance_unclamped transcript question in
  ((1 <= c <= 9.5) ∧ (2 <= cl <= 9) ∧ (5 <= re <= 9.5))%Q
  ∧ (clamp c = Float c ∧ clamp cl = Float cl ∧ clamp re = Float re)
  ∧ ∃ r c' cl' re',
      analyze_text transcript question = Some r
      ∧ r !! "confidence_score"%string = Some (VNum (Float c'))
      ∧ r !! "clarity_score"%string = Some (VNum (Float cl'))
      ∧ r !! "relevance_score"%string = Some (VNum (Float re'))
      ∧ (c' == c ∧ cl' == cl ∧ re' == re)%Q
      ∧ (0 < c' < 10 ∧ 0 < cl' < 10 ∧ 5 <= re' < 10)%Q.
Proof.
  intros c cl re.
  pose proof (confidence_unclamped_range transcript) as Hc.
  pose proof (clarity_unclamped_range transcript (avg_of transcript)) as Hcl.
  pose proof (relevance_unclamped_range transcript question) as Hre.
  fold c in Hc. fold cl in Hcl. fold re in Hre.
  assert (0 <= c <= 10)%Q as Hc' by lra.
  assert (0 <= cl <= 10)%Q as Hcl' by lra.
  assert (0 <= re <= 10)%Q as Hre' by lra.
  split; [done|]. split; [by rewrite !clamp_id|].
  destruct (analyze_text_result transcript question)
    as (r & Hr & H1 & H2 & H3 & _).
  destruct (py_round1_clamp_id c Hc' (confidence_unclamped_one_decimal _))
    as (c' & Ec & Hc'').
  destruct (py_round1_clamp_id cl Hcl' (clarity_unclamped_one_decimal _ _))
    as (cl' & Ecl & Hcl'').
  destruct (py_round1_clamp_id re Hre' (relevance_unclamped_one_decimal _ _))
    as (re' & Ere & Hre'').
  exists r, c', cl', re'.
  unfold confidence_clamped in H1. unfold clarity_clamped in H2.
  unfold relevance_clamped in H3. fold c in H1. fold cl in H2. fold re in H3.
  rewrite Ec in H1. rewrite Ecl in H2. rewrite Ere in H3.
  repeat split; try done; lra.
Qed.

(** ** Filler words *)

Section Fillers.

Implicit Types (T Qn : list N).

(** Whether the average sentence length earns the bonus of line 75. *)
Definition sentence_bonus T : bool :=
  Qle_bool 12 (avg_of T) && Qle_bool (avg_of T) 22.

(** The clarity score returned for [T]. *)
Lemma clarity_returned T Qn :
  ∃ r cl, analyze_text T Qn = Some r
        ∧ r !! "clarity_score"%string = Some (VNum (Float cl))
        ∧ (cl == clarity_unclamped T (avg_of T))%Q.
Proof.
  destruct (analyze_text_result T Qn) as (r & Hr & _ & H & _).
  pose proof (clarity_unclamped_range T (avg_of T)) as Hcl.
  destruct (py_round1_clamp_id (clarity_unclamped T (avg_of T)))
    as (cl & E & Hcl'); [lra | apply clarity_unclamped_one_decimal |].
  exists r, cl. unfold clarity_clamped in H. by rewrite E in H.
Qed.

(** Six fillers cost 1.8 points against a transcript without fillers that
    has the same sentence bonus and the same structure count. *)
Lemma clarity_unclamped_six T (T0 : list N) :
  fillers T = 6 → fillers T0 = 0 →
  sentence_bonus T = sentence_bonus T0 →
  structure_count T = structure_count T0 →
  (clarity_unclamped T (avg_of T) == clarity_unclamped T0 (avg_of T0) - 1.8)%Q.
Proof.
  unfold sentence_bonus, clarity_unclamped. intros -> -> -> ->.
  change (val (py_min (Float (inject_Z 6 * 0.3)) (Int 3))) with (18 # 10)%Q.
  change (val (py_min (Float (inject_Z 0 * 0.3)) (Int 3))) with (0 # 10)%Q.
  ring.
Qed.

End Fillers.

(** C6, as the code has it: for every transcript whose lowercased text holds
    exactly 6 occurrences of um, uh and like together, the result contains
    the reduce-filler-words message, and its clarity_score is exactly 1.8
    lower than that of any transcript without fillers that earns the same
    sentence-length bonus and has the same number of structure words. *)
Theorem six_fillers_cost (T T0 Qn Q0 : list N) :
  fillers T = 6 → fillers T0 = 0 →
  sentence_bonus T = sentence_bonus T0 →
  structure_count T = structure_count T0 →
  ∃ r r0 fb cl cl0,
    analyze_text T Qn = Some r ∧ analyze_text T0 Q0 = Some r0
    ∧ r !! "feedback"%string = Some (VList fb) ∧ msg_fillers ∈ fb
    ∧ r !! "clarity_score"%string = Some (VNum (Float cl))
    ∧ r0 !! "clarity_score"%string = Some (VNum (Float cl0))
    ∧ (cl == cl0 - 1.8)%Q.
Proof.
  intros H6 H0 Hb Hs.
  destruct (analyze_text_result T Qn) as (r & Hr & _ & _ & _ & _ & _ & Hf & _).
  destruct (clarity_returned T Qn) as (r' & cl & Hr' & Hcl & Ecl).
  destruct (clarity_returned T0 Q0) as (r0 & cl0 & Hr0 & Hcl0 & Ecl0).
  rewrite Hr in Hr'. injection Hr' as <-.
  exists r, r0, (feedback_of T Qn), cl, cl0.
  repeat split; try done.
  - apply make_feedback_fillers. lia.
  - rewrite Ecl, Ecl0. by apply clarity_unclamped_six.
Qed.

Lemma six_fillers_cost_witness :
  ∃ r r0 fb cl cl0,
    analyze_text (lit "um um um um um um") [] = Some r
    ∧ analyze_text (lit "so so so so so so") [] = Some r0
    ∧ r !! "feedback"%string = Some (VList fb) ∧ msg_fillers ∈ fb
    ∧ r !! "clarity_score"%string = Some (VNum (Float cl))
    ∧ r0 !! "clarity_score"%string = Some (VNum (Float cl0))
    ∧ (cl == cl0 - 1.8)%Q.
Proof.
  apply (six_fillers_cost (lit "um um um um um um") (lit "so so so so so so") [] []);
    by vm_compute.
Defined.

(** C6, as stated, fails: the transcript below holds "um" six times and
    scores 5.2 for clarity, its remainder without the fillers scores 5.0;
    the six words also lift the average sentence length into the bonus
    range. *)
Lemma six_fillers_not_always_lower :
  let T0 := lit "a b c d e f" in
  let T := lit "um um um um um um " ++ T0 in
  fillers T = 6 ∧ fillers T0 = 0
  ∧ (∃ r, analyze_text T [] = Some r
        ∧ r !! "clarity_score"%string = Some (VNum (Float 5.2)))
  ∧ (∃ r0, analyze_text T0 [] = Some r0
         ∧ r0 !! "clarity_score"%string = Some (VNum (Float 5.0)))
  ∧ ¬ (5.2 == 5.0 - 1.8)%Q.
Proof.
  repeat split.
  - eexists. split; [reflexivity | by vm_compute].
  - eexists. split; [reflexivity | by vm_compute].
  - by vm_compute.
Qed.

(** ** Upper-casing the inputs *)

Section UpperCase.

Implicit Types (T Qn s : list N) (c : N).

(** Strings of the ASCII range. *)
Definition is_ascii s : Prop := Forall (fun c => (c < 128)%N) s.

#[global] Instance is_ascii_dec s : Decision (is_ascii s).
Proof. unfold is_ascii. apply _. Defined.

(** What upper-casing one character keeps: it yields one character of the
    same class (whitespace, period, other) and of the same lowercase. *)
Definition upper_keeps c : bool :=
  match upper_cp c with
  | [u] =>
      bool_decide (isspace u = isspace c)
      && bool_decide ((u =? 46)%N = (c =? 46)%N)
      && bool_decide (lower_cp u = lower_cp c)
  | _ => false
  end.

Lemma upper_keeps_below_128 :
  forallb upper_keeps (map N.of_nat (seq 0 128)) = true.
Proof. by vm_compute. Qed.

Lemma upper_cp_ascii c :
  (c < 128)%N →
  ∃ u, upper_cp c = [u] ∧ isspace u = isspace c
     ∧ (u =? 46)%N = (c =? 46)%N ∧ lower_cp u = lower_cp c.
Proof.
  intros Hc.
  assert (upper_keeps c = true) as H.
  { apply (proj1 (forallb_forall _ _) upper_keeps_below_128).
    apply in_map_iff. exists (N.to_nat c). split; [lia|].
    apply in_seq. lia. }
  unfold upper_keeps in H. destruct (upper_cp c) as [|u [|? ?]]; try done.
  apply andb_true_iff in H as [[H1 H2]%andb_true_iff H3].
  apply bool_decide_eq_true in H1, H2, H3. by exists u.
Qed.

(** ASCII text holds no capital sigma: [lower] maps it character by
    character. *)
Lemma lower_from_ascii (before : list N) s :
  is_ascii s → lower_from before s = flat_map lower_cp s.
Proof.
  intros H. revert before. induction H as [|c s Hc _ IH]; intros before; [done|].
  simpl. rewrite (proj2 (N.eqb_neq c 931)) by lia. by rewrite IH.
Qed.

Lemma lower_ascii s : is_ascii s → lower s = flat_map lower_cp s.
Proof. apply lower_from_ascii. Qed.

Definition upper_stays_ascii c : bool :=
  forallb (fun u => (u <? 128)%N) (upper_cp c).

Lemma upper_stays_ascii_below_128 :
  forallb upper_stays_ascii (map N.of_nat (seq 0 128)) = true.
Proof. by vm_compute. Qed.

Lemma upper_is_ascii s : is_ascii s → is_ascii (upper s).
Proof.
  induction 1 as [|c s Hc _ IH]; [constructor|].
  unfold upper. simpl. apply Forall_app. split; [|done].
  assert (upper_stays_ascii c = true) as H.
  { apply (proj1 (forallb_forall _ _) upper_stays_ascii_below_128).
    apply in_map_iff. exists (N.to_nat c). split; [lia|].
    apply in_seq. lia. }
  apply Forall_forall. intros u Hu%list_elem_of_In.
  apply (proj1 (forallb_forall _ _) H) in Hu. by apply N.ltb_lt.
Qed.

Lemma lower_upper_ascii s : is_ascii s → lower (upper s) = lower s.
Proof.
  intros H. rewrite (lower_ascii (upper s)) by by apply upper_is_ascii.
  rewrite (lower_ascii s) by done.
  induction H as [|c s Hc _ IH]; [done|].
  destruct (upper_cp_ascii c Hc) as (u & Hu & _ & _ & Hl).
  unfold upper in *. simpl. rewrite Hu. simpl. by rewrite Hl, IH.
Qed.

Lemma count_tokens_upper_ascii s b :
  is_ascii s → count_tokens b (upper s) = count_tokens b s.
Proof.
  intros H. revert b. induction H as [|c s Hc _ IH]; intros b; [done|].
  destruct (upper_cp_ascii c Hc) as (u & Hu & Hs & _).
  unfold upper in *. simpl. rewrite Hu. simpl. rewrite Hs, !IH. done.
Qed.

Lemma count_sentences_upper_ascii s b :
  is_ascii s → count_sentences b (upper s) = count_sentences b s.
Proof.
  intros H. revert b. induction H as [|c s Hc _ IH]; intros b; [done|].
  destruct (upper_cp_ascii c Hc) as (u & Hu & Hs & Hp & _).
  unfold upper in *. simpl. rewrite Hu. simpl.
  unfold nonspace. rewrite Hs, Hp, !IH. done.
Qed.

Lemma word_count_tokens T : word_count T = Z.of_nat (count_tokens false T).
Proof. unfold word_count, len. by rewrite length_split_ws. Qed.

Lemma sentence_count_sentences T :
  sentence_count T = Z.of_nat (count_sentences false T).
Proof.
  unfold sentence_count, len, split. by rewrite length_filter_split_from.
Qed.

Lemma word_count_upper_ascii T : is_ascii T → word_count (upper T) = word_count T.
Proof. intros H. by rewrite !word_count_tokens, count_tokens_upper_ascii. Qed.

Lemma sentence_count_upper_ascii T :
  is_ascii T → sentence_count (upper T) = sentence_count T.
Proof.
  intros H. by rewrite !sentence_count_sentences, count_sentences_upper_ascii.
Qed.

(** On ASCII inputs the whole result is the same. *)
Lemma analyze_text_upper_ascii T Qn :
  is_ascii T → is_ascii Qn →
  analyze_text (upper T) (upper Qn) = analyze_text T Qn.
Proof.
  intros HT HQ.
  unfold analyze_text, avg_words_per_sentence, confidence_unclamped,
    clarity_unclamped, relevance_unclamped, make_feedback, fillers,
    structure_count, overlap.
  rewrite !(word_count_upper_ascii T HT), !(sentence_count_upper_ascii T HT),
    !(lower_upper_ascii T HT), !(lower_upper_ascii Qn HQ).
  reflexivity.
Qed.

End UpperCase.

(** C8, as the code has it: for ASCII transcripts and questions the three
    scores of [analyze_text] are unchanged when both inputs are
    upper-cased. *)
Theorem scores_invariant_under_upper_ascii (T Qn : list N) :
  is_ascii T → is_ascii Qn →
  ∃ r r', analyze_text T Qn = Some r
        ∧ analyze_text (upper T) (upper Qn) = Some r'
        ∧ ∀ k, k ∈ score_fields → is_Some (r !! k) ∧ r' !! k = r !! k.
Proof.
  intros HT HQ.
  destruct (analyze_text_result T Qn) as (r & Hr & Hc & Hcl & Hre & _).
  exists r, r. rewrite analyze_text_upper_ascii by done.
  split; [done|]. split; [done|]. intros k Hk. unfold score_fields in Hk.
  repeat (apply elem_of_cons in Hk as [-> | Hk]); [| | |by apply elem_of_nil in Hk];
    (split; [by eexists | done]).
Qed.

Lemma scores_invariant_under_upper_ascii_witness :
  ∃ r r', analyze_text (lit "I might, maybe.") (lit "Why?") = Some r
        ∧ analyze_text (upper (lit "I might, maybe.")) (upper (lit "Why?")) = Some r'
        ∧ ∀ k, k ∈ score_fields → is_Some (r !! k) ∧ r' !! k = r !! k.
Proof.
  apply (scores_invariant_under_upper_ascii (lit "I might, maybe.") (lit "Why?"));
    apply (bool_decide_unpack _); by vm_compute.
Defined.

(** C8, as stated, fails outside ASCII: the sharp s has no single upper-case
    letter, it becomes SS, so the upper-cased transcript holds the hedging
    word "possibly" that the original does not, and the confidence scores
    differ. *)
Lemma upper_changes_confidence :
  let T := lit "po" ++ [223%N] ++ lit "ibly" in
  upper T = lit "POSSIBLY"
  ∧ (∃ r, analyze_text T [] = Some r
        ∧ r !! "confidence_score"%string = Some (VNum (Float 4.0)))
  ∧ (∃ r', analyze_text (upper T) (upper []) = Some r'
         ∧ r' !! "confidence_score"%string = Some (VNum (Float 3.5)))
  ∧ ¬ (4.0 == 3.5)%Q.
Proof.
  repeat split.
  - eexists. split; [reflexivity | by vm_compute].
  - eexists. split; [reflexivity | by vm_compute].
  - by vm_compute.
Qed.

(** ** The mock of the frontend *)

Section Mock.

Import Frontend.

Implicit Types (T Qn : list N).

Definition mock_keys : gset string :=
  {[ "confidence_score"; "clarity_score"; "relevance_score"; "word_count";
     "feedback" ]}%string.

(** [round(min(10, b), 1)] for a number [b] that is not negative. *)
Lemma py_round1_min_10 (b : num) :
  (0 <= val b)%Q →
  (0 <= val (py_round1 (py_min (Int 10) b)) <= 10)%Q
  ∧ one_decimal (val (py_round1 (py_min (Int 10) b))).
Proof.
  intros Hb. unfold py_min. destruct (Qltb (val b) (val (Int 10))) eqn:E.
  - apply Qltb_lt in E. change (val (Int 10)) with 10%Q in E.
    destruct b as [n|q]; simpl in *.
    + split; [lra | apply one_decimal_int].
    + split; [apply round1_range; lra | apply round1_tenths].
  - simpl. split; [split; vm_compute; discriminate | apply one_decimal_int].
Qed.

Lemma py_max_5_nonneg (q : Q) : (0 <= val (py_max (Int 5) (Float q)))%Q.
Proof.
  unfold py_max. destruct (Qltb _ _) eqn:E; simpl.
  - apply Qltb_lt in E. simpl in E. change (inject_Z 5) with 5%Q in E. lra.
  - vm_compute. discriminate.
Qed.

End Mock.

(** C9, as the code has it: for every input [mock_analysis] returns the
    three scores, each in [0,10] with one decimal, the word count and a
    feedback list of four messages; the dictionary has no sentence_count
    entry. *)
Theorem mock_analysis_result (transcript question : list N) :
  ∃ r fb, Frontend.mock_analysis transcript question = Some r
     ∧ dom r = mock_keys
     ∧ r !! "sentence_count"%string = None
     ∧ (∀ k, k ∈ score_fields →
          ∃ x, r !! k = Some (VNum x) ∧ (0 <= val x <= 10)%Q ∧ one_decimal (val x))
     ∧ r !! "word_count"%string = Some (VNum (Int (word_count transcript)))
     ∧ r !! "feedback"%string = Some (VList fb)
     ∧ length fb = 4%nat.
Proof.
  unfold Frontend.mock_analysis. rewrite truediv_some by done. simpl.
  eexists _, _. split; [reflexivity|]. repeat split.
  - intros k Hk. unfold score_fields in Hk.
    repeat (apply elem_of_cons in Hk as [-> | Hk]); [| | |by apply elem_of_nil in Hk];
      eexists; (split; [reflexivity|]); apply py_round1_min_10.
    + apply py_max_5_nonneg.
    + destruct (_ <? _); vm_compute; discriminate.
    + destruct (existsb _ _); vm_compute; discriminate.
  - destruct (_ <? _); [done|]. by destruct (_ <? _).
Qed.

(** C9, as stated, fails: the result of [mock_analysis] lacks the
    sentence_count field that every result of [analyze_text] has. *)
Lemma mock_analysis_lacks_sentence_count :
  (∃ r, analyze_text [] [] = Some r
      ∧ is_Some (r !! "sentence_count"%string) ∧ dom r = result_keys)
  ∧ (∃ r, Frontend.mock_analysis [] [] = Some r
        ∧ r !! "sentence_count"%string = None ∧ dom r ≠ result_keys).
Proof.
  split; eexists; (split; [reflexivity|]); split.
  - eexists. reflexivity.
  - reflexivity.
  - reflexivity.
  - intros H.
    assert ("sentence_count"%string ∈ result_keys) as Hin
      by (unfold result_keys; set_solver).
    rewrite <- H in Hin. apply elem_of_dom in Hin as [v Hv]. discriminate Hv.
Qed.

(** * Further properties of the scorer *)

(** ** Counting words and sentences *)

Section Counting.

Implicit Types (T s : list N) (c : N) (b : bool).

Lemma count_tokens_app_space b s c (s' : list N) :
  isspace c = true →
  count_tokens b (s ++ c :: s') = (count_tokens b s + count_tokens false s')%nat.
Proof.
  intros Hc. revert b. induction s as [|a s IH]; intros b; simpl.
  - by rewrite Hc.
  - destruct (isspace a); rewrite IH; lia.
Qed.

Lemma count_sentences_app_period b s (s' : list N) :
  count_sentences b (s ++ 46%N :: s')
  = (count_sentences b s + count_sentences false s')%nat.
Proof.
  revert b. induction s as [|a s IH]; intros b; simpl; [done|].
  destruct (a =? 46)%N; rewrite IH; lia.
Qed.

Lemma count_tokens_zero_sentences s :
  count_tokens false s = 0%nat → count_sentences false s = 0%nat.
Proof.
  induction s as [|a s IH]; simpl; [done|].
  destruct (isspace a) eqn:E; [|done]. intros H.
  assert ((a =? 46)%N = false) as ->.
  { apply N.eqb_neq. intros ->. by vm_compute in E. }
  unfold nonspace. rewrite E. simpl. by apply IH.
Qed.

End Counting.

(** X1: Words on both sides of a whitespace character add up. *)
Theorem word_count_app_space (T1 T2 : list N) (c : N) :
  isspace c = true →
  word_count (T1 ++ c :: T2) = word_count T1 + word_count T2.
Proof.
  intros Hc. rewrite !word_count_tokens, count_tokens_app_space by done. lia.
Qed.

Lemma word_count_app_space_witness :
  word_count (lit "well done" ++ 32%N :: lit "indeed")
  = word_count (lit "well done") + word_count (lit "indeed").
Proof. apply (word_count_app_space (lit "well done") (lit "indeed") 32). reflexivity. Defined.

(** X2: Sentences on both sides of a period add up; so a final period adds no
    sentence. *)
Theorem sentence_count_app_period (T1 T2 : list N) :
  sentence_count (T1 ++ 46%N :: T2) = sentence_count T1 + sentence_count T2
  ∧ sentence_count (T1 ++ [46%N]) = sentence_count T1.
Proof.
  rewrite !sentence_count_sentences, !count_sentences_app_period. simpl. lia.
Qed.

(** X3: A transcript without words has no sentences, and its average sentence
    length is zero. *)
Theorem no_words_no_sentences (T : list N) :
  word_count T = 0 →
  sentence_count T = 0
  ∧ ∃ avg, avg_words_per_sentence T = Some avg ∧ (avg == 0)%Q.
Proof.
  intros H.
  assert (sentence_count T = 0) as Hs.
  { rewrite word_count_tokens in H. rewrite sentence_count_sentences.
    rewrite count_tokens_zero_sentences; [done | lia]. }
  split; [done|]. exists (avg_of T). split; [apply avg_words_per_sentence_some|].
  unfold avg_of. rewrite H, Hs. reflexivity.
Qed.

Lemma no_words_no_sentences_witness :
  sentence_count (lit "   ") = 0
  ∧ ∃ avg, avg_words_per_sentence (lit "   ") = Some avg ∧ (avg == 0)%Q.
Proof. apply (no_words_no_sentences (lit "   ")). reflexivity. Defined.

(** X4: Without a sentence the divisor falls back to 1: the average is the
    word count itself. *)
Theorem no_sentences_average (T : list N) :
  sentence_count T = 0 →
  ∃ avg, avg_words_per_sentence T = Some avg ∧ (avg == inject_Z (word_count T))%Q.
Proof.
  intros H. exists (avg_of T). split; [apply avg_words_per_sentence_some|].
  unfold avg_of. rewrite H. unfold Qeq. simpl. lia.
Qed.

Lemma no_sentences_average_witness :
  ∃ avg, avg_words_per_sentence (lit ". . .") = Some avg
       ∧ (avg == inject_Z (word_count (lit ". . .")))%Q.
Proof. apply (no_sentences_average (lit ". . .")). reflexivity. Defined.

(** ** Which feedback messages appear *)

Section FeedbackMembers.

Implicit Types (T Qn : list N) (avg : Q).

(** [make_feedback] as a function of the outcomes of its ten tests. *)
Definition feedback_from
    (low high many_fillers long short no_structure off_topic few many no_star : bool)
    : list string :=
  let feedback := [] in
  let feedback :=
    if low then feedback ++ [msg_assertive]
    else if high then feedback ++ [msg_confident] else feedback in
  let feedback := if many_fillers then feedback ++ [msg_fillers] else feedback in
  let feedback :=
    if long then feedback ++ [msg_long_sentences]
    else if short then feedback ++ [msg_short_sentences] else feedback in
  let feedback := if no_structure then feedback ++ [msg_transitions] else feedback in
  let feedback := if off_topic then feedback ++ [msg_relevance] else feedback in
  let feedback :=
    if few then feedback ++ [msg_detail]
    else if many then feedback ++ [msg_concise] else feedback in
  let feedback := if no_star then feedback ++ [msg_star] else feedback in
  match feedback with
  | [] => feedback ++ [msg_default]
  | _ => feedback
  end.

Lemma make_feedback_from T (c r : num) avg :
  make_feedback T c r avg
  = feedback_from (Qltb (val c) 6) (Qltb 8 (val c)) (5 <? fillers T)
      (Qltb 25 avg) (Qltb avg 10) (structure_count T =? 0) (Qltb (val r) 6)
      (word_count T <? 50) (200 <? word_count T)
      (negb (any_in star_words (lower T))).
Proof. reflexivity. Qed.

(** Each message is in the list exactly when its test succeeded (and, for
    the second arm of an if/elif, the first failed); the default message is
    the whole list exactly when no test succeeded; no message is repeated
    and there are at most seven. *)
Lemma feedback_from_members :
  ∀ low high many_fillers long short no_structure off_topic few many no_star : bool,
    let fb := feedback_from low high many_fillers long short no_structure
                off_topic few many no_star in
    bool_decide (msg_assertive ∈ fb) = low
    ∧ bool_decide (msg_confident ∈ fb) = negb low && high
    ∧ bool_decide (msg_fillers ∈ fb) = many_fillers
    ∧ bool_decide (msg_long_sentences ∈ fb) = long
    ∧ bool_decide (msg_short_sentences ∈ fb) = negb long && short
    ∧ bool_decide (msg_transitions ∈ fb) = no_structure
    ∧ bool_decide (msg_relevance ∈ fb) = off_topic
    ∧ bool_decide (msg_detail ∈ fb) = few
    ∧ bool_decide (msg_concise ∈ fb) = negb few && many
    ∧ bool_decide (msg_star ∈ fb) = no_star
    ∧ bool_decide (fb = [msg_default])
      = negb (low || high || many_fillers || long || short || no_structure
              || off_topic || few || many || no_star)
    ∧ bool_decide (NoDup fb ∧ (length fb <= 7)%nat) = true.
Proof. apply (bool_decide_unpack _). by vm_compute. Qed.

Lemma val_confidence_clamped T : val (confidence_clamped T) = confidence_unclamped T.
Proof.
  unfold confidence_clamped. rewrite clamp_id; [done|].
  pose proof (confidence_unclamped_range T). lra.
Qed.

Lemma val_relevance_clamped T Qn :
  val (relevance_clamped T Qn) = relevance_unclamped T Qn.
Proof.
  unfold relevance_clamped. rewrite clamp_id; [done|].
  pose proof (relevance_unclamped_range T Qn). lra.
Qed.

(** The scores and the feedback that [analyze_text] returns. *)
Lemma scores_returned T Qn :
  ∃ r c cl re,
    analyze_text T Qn = Some r
    ∧ r !! "confidence_score"%string = Some (VNum (Float c))
    ∧ r !! "clarity_score"%string = Some (VNum (Float cl))
    ∧ r !! "relevance_score"%string = Some (VNum (Float re))
    ∧ r !! "feedback"%string = Some (VList (feedback_of T Qn))
    ∧ (c == confidence_unclamped T)%Q
    ∧ (cl == clarity_unclamped T (avg_of T))%Q
    ∧ (re == relevance_unclamped T Qn)%Q.
Proof.
  destruct (analyze_text_result T Qn) as (r & Hr & H1 & H2 & H3 & _ & _ & Hf & _).
  pose proof (confidence_unclamped_range T) as Hc.
  pose proof (clarity_unclamped_range T (avg_of T)) as Hcl.
  pose proof (relevance_unclamped_range T Qn) as Hre.
  destruct (py_round1_clamp_id (confidence_unclamped T))
    as (c & Ec & Hc'); [lra | apply confidence_unclamped_one_decimal |].
  destruct (py_round1_clamp_id (clarity_unclamped T (avg_of T)))
    as (cl & Ecl & Hcl'); [lra | apply clarity_unclamped_one_decimal |].
  destruct (py_round1_clamp_id (relevance_unclamped T Qn))
    as (re & Ere & Hre'); [lra | apply relevance_unclamped_one_decimal |].
  exists r, c, cl, re.
  unfold confidence_clamped in H1. unfold clarity_clamped in H2.
  unfold relevance_clamped in H3. rewrite Ec in H1. rewrite Ecl in H2.
  rewrite Ere in H3. done.
Qed.

(** The confidence score in halves: [a] confident words, [b] hedging words
    and a length adjustment [k]. *)
Lemma confidence_value (a b k : Z) :
  (5 + inject_Z a * 0.5 - inject_Z b * 0.5 + inject_Z k == (10 + a - b + 2 * k) # 2)%Q.
Proof. unfold Qeq. simpl. lia. Qed.

End FeedbackMembers.

Section FeedbackTests.

Implicit Types (T Qn : list N).

(** The feedback of [analyze_text] from the ten tests on the scores and
    counts of the transcript. *)
Lemma feedback_of_from T Qn :
  feedback_of T Qn
  = feedback_from (Qltb (confidence_unclamped T) 6) (Qltb 8 (confidence_unclamped T))
      (5 <? fillers T) (Qltb 25 (avg_of T)) (Qltb (avg_of T) 10)
      (structure_count T =? 0) (Qltb (relevance_unclamped T Qn) 6)
      (word_count T <? 50) (200 <? word_count T)
      (negb (any_in star_words (lower T))).
Proof.
  unfold feedback_of.
  by rewrite make_feedback_from, val_confidence_clamped, val_relevance_clamped.
Qed.

(** The length adjustment of lines 66-69, in whole points. *)
Definition length_points (word_count : Z) : Z :=
  if (50 <=? word_count) && (word_count <=? 150) then 2
  else if word_count <? 30 then -1 else 0.

(** The confidence score in halves of a point. *)
Lemma confidence_unclamped_halves T :
  (confidence_unclamped T
   == (10 + count_if_in confident_words (lower T)
       - count_if_in hedging_words (lower T) + 2 * length_points (word_count T)) # 2)%Q.
Proof.
  unfold confidence_unclamped, length_points.
  destruct (_ && _); [|destruct (_ <? _)]; unfold Qeq; simpl; lia.
Qed.

Lemma Qltb_halves_r (k n : Z) : Qltb (inject_Z k) (n # 2) = (2 * k <? n).
Proof.
  destruct (2 * k <? n) eqn:E.
  - apply Z.ltb_lt in E. apply Qltb_lt. unfold Qlt. simpl. lia.
  - apply Z.ltb_ge in E. apply Qltb_ge. unfold Qle. simpl. lia.
Qed.

Lemma Qltb_halves_l (k n : Z) : Qltb (n # 2) (inject_Z k) = (n <? 2 * k).
Proof.
  destruct (n <? 2 * k) eqn:E.
  - apply Z.ltb_lt in E. apply Qltb_lt. unfold Qlt. simpl. lia.
  - apply Z.ltb_ge in E. apply Qltb_ge. unfold Qle. simpl. lia.
Qed.

Lemma Qltb_proper_l (x y z : Q) : (x == y)%Q → Qltb x z = Qltb y z.
Proof. intros H. unfold Qltb. by rewrite H. Qed.

Lemma Qltb_proper_r (x y z : Q) : (x == y)%Q → Qltb z x = Qltb z y.
Proof. intros H. unfold Qltb. by rewrite H. Qed.

Lemma confidence_test_high T :
  Qltb 8 (confidence_unclamped T) = true
  ↔ 50 <= word_count T <= 150
    ∧ (members_occurring hedging_words (lower T) + 3
       <= members_occurring confident_words (lower T))%nat.
Proof.
  rewrite (Qltb_proper_r _ _ 8 (confidence_unclamped_halves T)).
  rewrite (Qltb_halves_r 8), Z.ltb_lt, !count_if_in_members.
  pose proof (count_if_in_bounds confident_words (lower T)) as Hc.
  rewrite count_if_in_members in Hc. change (len confident_words) with 5 in Hc.
  unfold length_points.
  destruct (_ && _) eqn:E.
  - apply andb_true_iff in E as [E1%Z.leb_le E2%Z.leb_le]. lia.
  - apply andb_false_iff in E. rewrite Z.leb_gt, Z.leb_gt in E.
    destruct (_ <? _); lia.
Qed.

Lemma confidence_test_low_high T :
  Qltb 8 (confidence_unclamped T) = true → Qltb (confidence_unclamped T) 6 = false.
Proof. rewrite Qltb_lt, Qltb_ge. lra. Qed.

Lemma relevance_test T Qn :
  Qltb (relevance_unclamped T Qn) 6 = true
  ↔ overlap T Qn <= 1 ∧ any_in example_indicators (lower T) = false.
Proof.
  rewrite Qltb_lt. unfold relevance_unclamped.
  pose proof (overlap_nonneg T Qn) as Ho.
  destruct (py_min_bound (inject_Z (overlap T Qn) * 0.7) 3) as (Hle & H3 & H0).
  assert (0 <= val (py_min (Float (inject_Z (overlap T Qn) * 0.7)) (Int 3)))%Q as Hp.
  { apply H0; [|lia]. rewrite Zle_Qle in Ho. change (inject_Z 0) with 0%Q in Ho. lra. }
  destruct (any_in _ _).
  - split; [intros; lra | by intros [_ ?]].
  - split.
    + intros H. split; [|done].
      destruct (decide (overlap T Qn <= 1)) as [|Hn]; [done|]. exfalso.
      assert (2 <= overlap T Qn) as H2 by lia.
      rewrite Zle_Qle in H2. change (inject_Z 2) with 2%Q in H2.
      revert H. rewrite val_py_min. simpl val. change (inject_Z 3) with 3%Q.
      destruct (Q.min_spec (inject_Z (overlap T Qn) * 0.7) 3) as [[_ ->]|[_ ->]]; lra.
    + intros [H _]. rewrite Zle_Qle in H. change (inject_Z 1) with 1%Q in H. lra.
Qed.

End FeedbackTests.

Lemma bool_decide_iff_eq (P : Prop) `{Decision P} (b : bool) :
  bool_decide P = b → (P ↔ b = true).
Proof. intros <-. symmetry. apply bool_decide_eq_true. Qed.

(** Some test of lines 113-142 succeeds, on the confidence score [c], the
    relevance score [re] and the average sentence length [avg]. *)
Definition issue_fires (T : list N) (c re avg : Q) : Prop :=
  (c < 6)%Q ∨ (8 < c)%Q ∨ 5 < fillers T ∨ (25 < avg)%Q ∨ (avg < 10)%Q
  ∨ structure_count T = 0 ∨ (re < 6)%Q ∨ word_count T < 50 ∨ 200 < word_count T
  ∨ ¬ (∃ w, w ∈ star_words ∧ occurs_in w (lower T)).

Lemma issue_fires_tests (T : list N) (c re avg : Q) :
  issue_fires T c re avg
  ↔ Qltb c 6 || Qltb 8 c || (5 <? fillers T) || Qltb 25 avg || Qltb avg 10
    || (structure_count T =? 0) || Qltb re 6 || (word_count T <? 50)
    || (200 <? word_count T) || negb (any_in star_words (lower T)) = true.
Proof.
  unfold issue_fires.
  rewrite !orb_true_iff, !Qltb_lt, !Z.ltb_lt, Z.eqb_eq, negb_true_iff,
    <- not_true_iff_false, any_in_spec.
  tauto.
Qed.

(** C7: for every input the feedback list of [analyze_text] is non-empty:
    it is the default praise message alone exactly when no test on the
    scores and counts succeeds, and holds no default message when one does;
    the empty transcript and question give word_count 0, sentence_count 0
    and a non-empty feedback list. *)
Theorem analyze_text_feedback_nonempty (transcript question : list N) :
  (∃ r c re avg fb,
      analyze_text transcript question = Some r
      ∧ r !! "confidence_score"%string = Some (VNum (Float c))
      ∧ r !! "relevance_score"%string = Some (VNum (Float re))
      ∧ avg_words_per_sentence transcript = Some avg
      ∧ r !! "feedback"%string = Some (VList fb)
      ∧ fb ≠ []
      ∧ (fb = [msg_default] ↔ ¬ issue_fires transcript c re avg)
      ∧ (issue_fires transcript c re avg → msg_default ∉ fb)
      ∧ (fb = [msg_default] ∨ msg_default ∉ fb))
  ∧ (∃ r fb, analyze_text [] [] = Some r
           ∧ r !! "word_count"%string = Some (VNum (Int 0))
           ∧ r !! "sentence_count"%string = Some (VNum (Int 0))
           ∧ r !! "feedback"%string = Some (VList fb)
           ∧ fb ≠ []).
Proof.
  split.
  - destruct (scores_returned transcript question)
      as (r & c & cl & re & Hr & H1 & _ & H3 & Hf & Ec & _ & Ere).
    exists r, c, re, (avg_of transcript), (feedback_of transcript question).
    repeat (split; [done|]).
    split; [apply avg_words_per_sentence_some|]. split; [done|].
    split; [apply make_feedback_nonempty|].
    assert (feedback_of transcript question = [msg_default]
            ↔ ¬ issue_fires transcript c re (avg_of transcript)) as Hiff.
    { rewrite issue_fires_tests, not_true_iff_false, feedback_of_from.
      rewrite (Qltb_proper_l _ _ 6 Ec), (Qltb_proper_r _ _ 8 Ec),
        (Qltb_proper_l _ _ 6 Ere).
      match goal with |- context [feedback_from ?a ?b ?c ?d ?e ?f ?g ?h ?i ?j] =>
        destruct (feedback_from_members a b c d e f g h i j)
          as (_ & _ & _ & _ & _ & _ & _ & _ & _ & _ & Hd & _)
      end.
      apply bool_decide_iff_eq in Hd. by rewrite Hd, negb_true_iff. }
    split; [done|].
    pose proof (make_feedback_default transcript (confidence_clamped transcript)
                  (relevance_clamped transcript question) (avg_of transcript)) as Hd.
    fold (feedback_of transcript question) in Hd.
    split; [|done]. intros Hi. destruct Hd as [Hd|Hd]; [|done].
    by apply Hiff in Hd.
  - destruct (analyze_text_result [] []) as (r & Hr & _ & _ & _ & Hw & Hs & Hf & _).
    exists r, (feedback_of [] []).
    repeat split; [done | done | done | done | apply make_feedback_nonempty].
Qed.

(** X5: The feedback list holds no message twice and at most seven messages;
    the two arms of each if/elif never both leave their message. *)
Theorem feedback_shape (transcript question : list N) :
  ∃ r fb, analyze_text transcript question = Some r
        ∧ r !! "feedback"%string = Some (VList fb)
        ∧ NoDup fb ∧ (length fb <= 7)%nat
        ∧ ¬ (msg_assertive ∈ fb ∧ msg_confident ∈ fb)
        ∧ ¬ (msg_long_sentences ∈ fb ∧ msg_short_sentences ∈ fb)
        ∧ ¬ (msg_detail ∈ fb ∧ msg_concise ∈ fb).
Proof.
  destruct (scores_returned transcript question) as (r & _ & _ & _ & Hr & _ & _ & _ & Hf & _).
  exists r, (feedback_of transcript question). split; [done|]. split; [done|].
  rewrite feedback_of_from.
  match goal with |- context [feedback_from ?a ?b ?c ?d ?e ?f ?g ?h ?i ?j] =>
    destruct (feedback_from_members a b c d e f g h i j)
      as (Ha & Hb & _ & Hd & He & _ & _ & Hh & Hi & _ & _ & Hn)
  end.
  apply bool_decide_eq_true in Hn as [Hn1 Hn2].
  apply bool_decide_iff_eq in Ha, Hb, Hd, He, Hh, Hi.
  split; [done|]. split; [done|]. repeat split.
  - rewrite Ha, Hb. by intros [-> ?].
  - rewrite Hd, He. by intros [-> ?].
  - rewrite Hh, Hi. by intros [-> ?].
Qed.

(** X6: A transcript of 50 to 150 words that holds no confident and no hedging
    word scores 7.0 for confidence. *)
Theorem plain_answer_confidence (transcript question : list N) :
  50 <= word_count transcript <= 150 →
  members_occurring confident_words (lower transcript) = 0%nat →
  members_occurring hedging_words (lower transcript) = 0%nat →
  ∃ r c, analyze_text transcript question = Some r
       ∧ r !! "confidence_score"%string = Some (VNum (Float c))
       ∧ (c == 7)%Q.
Proof.
  intros Hw Hc Hh.
  destruct (scores_returned transcript question) as (r & c & _ & _ & Hr & H1 & _ & _ & _ & Ec & _).
  exists r, c. split; [done|]. split; [done|].
  rewrite Ec, confidence_unclamped_halves, !count_if_in_members, Hc, Hh.
  unfold length_points.
  rewrite (proj2 (Z.leb_le 50 _)), (proj2 (Z.leb_le _ 150)) by lia. reflexivity.
Qed.

(** Fifty words, none of them confident or hedging. *)
Definition fifty_plain_words : list N := concat (replicate 50 (lit "go ")).

Lemma plain_answer_confidence_witness :
  ∃ r c, analyze_text fifty_plain_words [] = Some r
       ∧ r !! "confidence_score"%string = Some (VNum (Float c))
       ∧ (c == 7)%Q.
Proof.
  apply (plain_answer_confidence fifty_plain_words []); [by vm_compute | |];
    reflexivity.
Defined.

(** X7: The message on great confidence appears exactly for a transcript of 50
    to 150 words in which the confident words that occur outnumber the
    hedging words that occur by three or more. *)
Theorem great_confidence_iff (transcript question : list N) :
  ∃ r fb, analyze_text transcript question = Some r
        ∧ r !! "feedback"%string = Some (VList fb)
        ∧ (msg_confident ∈ fb
           ↔ 50 <= word_count transcript <= 150
             ∧ (members_occurring hedging_words (lower transcript) + 3
                <= members_occurring confident_words (lower transcript))%nat).
Proof.
  destruct (scores_returned transcript question) as (r & _ & _ & _ & Hr & _ & _ & _ & Hf & _).
  exists r, (feedback_of transcript question). split; [done|]. split; [done|].
  rewrite feedback_of_from.
  match goal with |- context [feedback_from ?a ?b ?c ?d ?e ?f ?g ?h ?i ?j] =>
    destruct (feedback_from_members a b c d e f g h i j) as (_ & Hb & _)
  end.
  apply bool_decide_iff_eq in Hb.
  rewrite <- confidence_test_high, Hb, andb_true_iff, negb_true_iff.
  split; [by intros [_ ?] | intros H].
  split; [by apply confidence_test_low_high | done].
Qed.

(** X8: The tip to answer the question appears exactly when at most one
    question word is matched and no example indicator occurs. *)
Theorem relevance_tip_iff (transcript question : list N) :
  ∃ r fb, analyze_text transcript question = Some r
        ∧ r !! "feedback"%string = Some (VList fb)
        ∧ (msg_relevance ∈ fb
           ↔ overlap transcript question <= 1
             ∧ ¬ ∃ w, w ∈ example_indicators ∧ occurs_in w (lower transcript)).
Proof.
  destruct (scores_returned transcript question) as (r & _ & _ & _ & Hr & _ & _ & _ & Hf & _).
  exists r, (feedback_of transcript question). split; [done|]. split; [done|].
  rewrite feedback_of_from.
  match goal with |- context [feedback_from ?a ?b ?c ?d ?e ?f ?g ?h ?i ?j] =>
    destruct (feedback_from_members a b c d e f g h i j)
      as (_ & _ & _ & _ & _ & _ & Hg & _)
  end.
  apply bool_decide_iff_eq in Hg.
  by rewrite <- any_in_spec, not_true_iff_false, <- relevance_test.
Qed.

(** X9: The default praise is the whole feedback exactly when the confidence
    score is between 6 and 8, at most five fillers were counted, the
    average sentence has 10 to 25 words, a structure word occurs, the
    relevance score is at least 6, the transcript has 50 to 200 words and a
    STAR word occurs. *)
Theorem default_praise_iff (transcript question : list N) :
  ∃ r c re fb,
    analyze_text transcript question = Some r
    ∧ r !! "confidence_score"%string = Some (VNum (Float c))
    ∧ r !! "relevance_score"%string = Some (VNum (Float re))
    ∧ r !! "feedback"%string = Some (VList fb)
    ∧ (fb = [msg_default]
       ↔ (6 <= c <= 8)%Q
         ∧ fillers transcript <= 5
         ∧ (10 <= avg_of transcript <= 25)%Q
         ∧ 1 <= structure_count transcript
         ∧ (6 <= re)%Q
         ∧ 50 <= word_count transcript <= 200
         ∧ ∃ w, w ∈ star_words ∧ occurs_in w (lower transcript)).
Proof.
  destruct (scores_returned transcript question)
    as (r & c & cl & re & Hr & H1 & _ & H3 & Hf & Ec & _ & Ere).
  exists r, c, re, (feedback_of transcript question).
  repeat (split; [done|]).
  rewrite feedback_of_from.
  match goal with |- context [feedback_from ?a ?b ?c ?d ?e ?f ?g ?h ?i ?j] =>
    destruct (feedback_from_members a b c d e f g h i j)
      as (_ & _ & _ & _ & _ & _ & _ & _ & _ & _ & Hd & _)
  end.
  apply bool_decide_iff_eq in Hd. rewrite Hd. clear Hd.
  rewrite negb_true_iff, !orb_false_iff, negb_false_iff.
  rewrite !Qltb_ge, Z.ltb_ge, Z.eqb_neq, !Z.ltb_ge, any_in_spec, Ec, Ere.
  pose proof (structure_count_bounds transcript). intuition lia.
Qed.

(** An answer that earns the default praise: five sentences of ten words
    with a structure word, an example indicator and a STAR word. *)
Definition praised_answer : list N :=
  concat (replicate 4 (lit "go go go go go go go go go go. "))
  ++ lit "first the project task go go go go go go.".

Lemma default_praise_reachable :
  ∃ r, analyze_text praised_answer [] = Some r
     ∧ r !! "feedback"%string = Some (VList [msg_default]).
Proof. eexists. split; [reflexivity | by vm_compute]. Qed.

Section SharedWords.

Implicit Types (T Qn s : list N).

Lemma occurs_in_prefix (p q s : list N) : occurs_in (p ++ q) s → occurs_in p s.
Proof.
  intros (pre & post & ->). exists pre, (q ++ post). by rewrite <- app_assoc.
Qed.

Lemma relevance_with_indicator T Qn :
  any_in example_indicators (lower T) = true →
  (6.5 <= relevance_unclamped T Qn)%Q.
Proof.
  intros H. unfold relevance_unclamped. rewrite H.
  pose proof (overlap_nonneg T Qn) as Ho. rewrite Zle_Qle in Ho.
  change (inject_Z 0) with 0%Q in Ho.
  destruct (py_min_bound (inject_Z (overlap T Qn) * 0.7) 3) as (_ & _ & H0).
  assert (0 <= val (py_min (Float (inject_Z (overlap T Qn) * 0.7)) (Int 3)))%Q
    by (apply H0; [lra | lia]).
  lra.
Qed.

End SharedWords.

(** X10: The confident word "experienced" holds the example indicator
    "experience": a transcript in which it occurs gains on both scores, has
    a relevance score of at least 6.5 and never gets the relevance tip. *)
Theorem experienced_counts_twice (transcript question : list N) :
  occurs_in (lit "experienced") (lower transcript) →
  (1 <= members_occurring confident_words (lower transcript))%nat
  ∧ ∃ r re fb, analyze_text transcript question = Some r
             ∧ r !! "relevance_score"%string = Some (VNum (Float re))
             ∧ r !! "feedback"%string = Some (VList fb)
             ∧ (6.5 <= re)%Q ∧ msg_relevance ∉ fb.
Proof.
  intros H.
  assert (any_in example_indicators (lower transcript) = true) as Hind.
  { apply any_in_spec. exists (lit "experience"). split.
    - apply (bool_decide_unpack _). by vm_compute.
    - by apply (occurs_in_prefix (lit "experience") (lit "d")). }
  split.
  - unfold members_occurring.
    assert (lit "experienced" ∈ filter (fun w => occurs_in w (lower transcript))
                                      confident_words) as Hin.
    { apply list_elem_of_filter. split; [done|].
      apply (bool_decide_unpack _). by vm_compute. }
    destruct (filter _ confident_words); [by apply elem_of_nil in Hin | simpl; lia].
  - destruct (scores_returned transcript question)
      as (r & _ & _ & re & Hr & _ & _ & H3 & Hf & _ & _ & Ere).
    exists r, re, (feedback_of transcript question).
    repeat (split; [done|]).
    pose proof (relevance_with_indicator transcript question Hind) as Hre.
    split; [by rewrite Ere|].
    rewrite feedback_of_from.
    match goal with |- context [feedback_from ?a ?b ?c ?d ?e ?f ?g ?h ?i ?j] =>
      destruct (feedback_from_members a b c d e f g h i j)
        as (_ & _ & _ & _ & _ & _ & Hg & _)
    end.
    apply bool_decide_iff_eq in Hg. rewrite Hg, Qltb_lt. lra.
Qed.

Lemma experienced_counts_twice_witness :
  (1 <= members_occurring confident_words (lower (lit "An Experienced lead")))%nat
  ∧ ∃ r re fb, analyze_text (lit "An Experienced lead") [] = Some r
             ∧ r !! "relevance_score"%string = Some (VNum (Float re))
             ∧ r !! "feedback"%string = Some (VList fb)
             ∧ (6.5 <= re)%Q ∧ msg_relevance ∉ fb.
Proof.
  apply (experienced_counts_twice (lit "An Experienced lead") []).
  apply (bool_decide_unpack _). by vm_compute.
Defined.

(** X11: "situation" is both an example indicator and a STAR word: a transcript
    in which it occurs gets neither the relevance tip nor the STAR
    suggestion. *)
Theorem situation_counts_twice (transcript question : list N) :
  occurs_in (lit "situation") (lower transcript) →
  ∃ r fb, analyze_text transcript question = Some r
        ∧ r !! "feedback"%string = Some (VList fb)
        ∧ (msg_relevance ∉ fb) ∧ (msg_star ∉ fb).
Proof.
  intros H.
  assert (any_in example_indicators (lower transcript) = true) as Hind.
  { apply any_in_spec. exists (lit "situation"). split; [|done].
    apply (bool_decide_unpack _). by vm_compute. }
  assert (any_in star_words (lower transcript) = true) as Hstar.
  { apply any_in_spec. exists (lit "situation"). split; [|done].
    apply (bool_decide_unpack _). by vm_compute. }
  destruct (scores_returned transcript question)
    as (r & _ & _ & _ & Hr & _ & _ & _ & Hf & _).
  exists r, (feedback_of transcript question).
  repeat (split; [done|]).
  pose proof (relevance_with_indicator transcript question Hind) as Hre.
  rewrite feedback_of_from.
  match goal with |- context [feedback_from ?a ?b ?c ?d ?e ?f ?g ?h ?i ?j] =>
    destruct (feedback_from_members a b c d e f g h i j)
      as (_ & _ & _ & _ & _ & _ & Hg & _ & _ & Hj & _)
  end.
  apply bool_decide_iff_eq in Hg, Hj. rewrite Hg, Hj, Qltb_lt, Hstar.
  split; [lra | done].
Qed.

Lemma situation_counts_twice_witness :
  ∃ r fb, analyze_text (lit "A hard situation.") [] = Some r
        ∧ r !! "feedback"%string = Some (VList fb)
        ∧ (msg_relevance ∉ fb) ∧ (msg_star ∉ fb).
Proof.
  apply (situation_counts_twice (lit "A hard situation.") []).
  apply (bool_decide_unpack _). by vm_compute.
Defined.

(** ** Fillers *)

Section FillerFacts.

Implicit Types (T s sub : list N).

Lemma count_from_pos sub s :
  sub ≠ [] → (0 < count_from sub 0 s ↔ contains sub s = true).
Proof.
  intros Hsub. induction s as [|c s IH]; simpl.
  - destruct sub; [done|]. simpl. split; [lia | done].
  - destruct (startswith sub (c :: s)); simpl.
    + pose proof (count_from_nonneg sub (length sub - 1) s). split; [done | lia].
    + done.
Qed.

Lemma count_zero sub s : sub ≠ [] → (count sub s = 0 ↔ ¬ occurs_in sub s).
Proof.
  intros Hsub. rewrite <- contains_spec, <- count_from_pos by done.
  pose proof (count_from_nonneg sub 0 s).
  unfold count. destruct sub; [done|]. lia.
Qed.

(** The filler penalty of line 80, for [f] fillers. *)
Definition filler_penalty (f : Z) : Q :=
  val (py_min (Float (inject_Z f * 0.3)) (Int 3)).

Lemma filler_penalty_min (f : Z) : (filler_penalty f == Qmin (inject_Z f * 0.3) 3)%Q.
Proof. unfold filler_penalty. by rewrite val_py_min. Qed.

Lemma filler_penalty_mono (f g : Z) :
  f <= g → (filler_penalty f <= filler_penalty g)%Q.
Proof.
  intros H. rewrite !filler_penalty_min. rewrite Zle_Qle in H.
  apply Q.min_le_compat_r. lra.
Qed.

Lemma filler_penalty_cap (f : Z) : 10 <= f → (filler_penalty f == 3)%Q.
Proof.
  intros H. rewrite filler_penalty_min. rewrite Zle_Qle in H.
  change (inject_Z 10) with 10%Q in H. apply Q.min_r. lra.
Qed.

Lemma clarity_unclamped_penalty T (avg : Q) :
  (clarity_unclamped T avg
   == (if Qle_bool 12 avg && Qle_bool avg 22 then 7 else 5)
      - filler_penalty (fillers T)
      + val (py_min (Float (inject_Z (structure_count T) * 0.5)) (Int 2)))%Q.
Proof.
  unfold clarity_unclamped, filler_penalty. by destruct (_ && _).
Qed.

End FillerFacts.

(** X12: No filler is counted exactly when none of "um", "uh" and "like" occurs
    in the lowercased transcript; so the filler tip implies that one
    occurs. *)
Theorem fillers_zero_iff (transcript : list N) :
  fillers transcript = 0
  ↔ ¬ occurs_in (lit "um") (lower transcript)
    ∧ ¬ occurs_in (lit "uh") (lower transcript)
    ∧ ¬ occurs_in (lit "like") (lower transcript).
Proof.
  rewrite <- !count_zero by done. unfold fillers.
  pose proof (count_nonneg (lit "um") (lower transcript)).
  pose proof (count_nonneg (lit "uh") (lower transcript)).
  pose proof (count_nonneg (lit "like") (lower transcript)). lia.
Qed.

(** X13: Between two transcripts with the same sentence bonus and the same
    structure count, the one with more fillers never has the higher clarity
    score, and from ten fillers on the score no longer changes. *)
Theorem more_fillers_less_clarity (T T' Qn Qn' : list N) :
  sentence_bonus T = sentence_bonus T' →
  structure_count T = structure_count T' →
  fillers T <= fillers T' →
  ∃ r r' cl cl',
    analyze_text T Qn = Some r ∧ analyze_text T' Qn' = Some r'
    ∧ r !! "clarity_score"%string = Some (VNum (Float cl))
    ∧ r' !! "clarity_score"%string = Some (VNum (Float cl'))
    ∧ (cl' <= cl)%Q
    ∧ (10 <= fillers T → (cl' == cl)%Q).
Proof.
  intros Hb Hs Hf.
  destruct (scores_returned T Qn) as (r & _ & cl & _ & Hr & _ & H2 & _ & _ & _ & Ecl & _).
  destruct (scores_returned T' Qn') as (r' & _ & cl' & _ & Hr' & _ & H2' & _ & _ & _ & Ecl' & _).
  exists r, r', cl, cl'. repeat (split; [done|]).
  rewrite Ecl, Ecl', !clarity_unclamped_penalty.
  unfold sentence_bonus in Hb. rewrite Hb, Hs.
  pose proof (filler_penalty_mono _ _ Hf) as Hm.
  split; [lra|]. intros H10.
  rewrite (filler_penalty_cap (fillers T)), (filler_penalty_cap (fillers T')) by lia.
  reflexivity.
Qed.

Lemma more_fillers_less_clarity_witness :
  ∃ r r' cl cl',
    analyze_text (lit "so it went") [] = Some r
    ∧ analyze_text (lit "um it went") [] = Some r'
    ∧ r !! "clarity_score"%string = Some (VNum (Float cl))
    ∧ r' !! "clarity_score"%string = Some (VNum (Float cl'))
    ∧ (cl' <= cl)%Q
    ∧ (10 <= fillers (lit "so it went") → (cl' == cl)%Q).
Proof.
  apply (more_fillers_less_clarity (lit "so it went") (lit "um it went") [] []);
    by vm_compute.
Defined.

(** ** Question words *)

(** X14: A question made of stop words only (or of nothing) matches no word of
    the transcript: the overlap is zero and the relevance score is 5.0, or
    6.5 with an example indicator. *)
Theorem stop_word_question (transcript question : list N) :
  Forall (fun w => w ∈ stop_words) (split_ws (lower question)) →
  overlap transcript question = 0
  ∧ ∃ r re, analyze_text transcript question = Some r
          ∧ r !! "relevance_score"%string = Some (VNum (Float re))
          ∧ (re == 5 ∨ re == 6.5)%Q.
Proof.
  intros H.
  assert (overlap transcript question = 0) as Ho.
  { rewrite overlap_spec. unfold spec_overlap.
    replace (filter _ (split_ws (lower question))) with (@nil (list N)); [done|].
    induction H as [|w ws Hw _ IH]; [done|].
    rewrite filter_cons_False by tauto. done. }
  split; [done|].
  destruct (scores_returned transcript question)
    as (r & _ & _ & re & Hr & _ & _ & H3 & _ & _ & _ & Ere).
  exists r, re. repeat (split; [done|]).
  rewrite Ere. unfold relevance_unclamped. rewrite Ho.
  change (val (py_min (Float (inject_Z 0 * 0.7)) (Int 3))) with (0 # 10)%Q.
  destruct (any_in _ _); [right | left]; reflexivity.
Qed.

Lemma stop_word_question_witness :
  overlap (lit "It is the best") (lit "Is THE for a") = 0
  ∧ ∃ r re, analyze_text (lit "It is the best") (lit "Is THE for a") = Some r
          ∧ r !! "relevance_score"%string = Some (VNum (Float re))
          ∧ (re == 5 ∨ re == 6.5)%Q.
Proof.
  apply (stop_word_question (lit "It is the best") (lit "Is THE for a")).
  apply (bool_decide_unpack _). by vm_compute.
Defined.

(** ** Letter case *)

Section LowerCase.

Implicit Types (T Qn s : list N) (c : N).

(** Lower-casing an ASCII character yields one character of the same class
    (whitespace, period, other). *)
Definition lower_keeps c : bool :=
  match lower_cp c with
  | [l] =>
      bool_decide (isspace l = isspace c)
      && bool_decide ((l =? 46)%N = (c =? 46)%N)
  | _ => false
  end.

Lemma lower_keeps_below_128 :
  forallb lower_keeps (map N.of_nat (seq 0 128)) = true.
Proof. by vm_compute. Qed.

Lemma lower_cp_ascii c :
  (c < 128)%N →
  ∃ l, lower_cp c = [l] ∧ isspace l = isspace c ∧ (l =? 46)%N = (c =? 46)%N.
Proof.
  intros Hc.
  assert (lower_keeps c = true) as H.
  { apply (proj1 (forallb_forall _ _) lower_keeps_below_128).
    apply in_map_iff. exists (N.to_nat c). split; [lia|].
    apply in_seq. lia. }
  unfold lower_keeps in H. destruct (lower_cp c) as [|l [|? ?]]; try done.
  apply andb_true_iff in H as [H1 H2].
  apply bool_decide_eq_true in H1, H2. by exists l.
Qed.

Lemma count_tokens_lower_ascii s b :
  is_ascii s → count_tokens b (lower s) = count_tokens b s.
Proof.
  intros H. rewrite (lower_ascii s H).
  revert b. induction H as [|c s Hc _ IH]; intros b; [done|].
  destruct (lower_cp_ascii c Hc) as (l & Hl & Hs & _).
  simpl. rewrite Hl. simpl. rewrite Hs, !IH. done.
Qed.

Lemma count_sentences_lower_ascii s b :
  is_ascii s → count_sentences b (lower s) = count_sentences b s.
Proof.
  intros H. rewrite (lower_ascii s H).
  revert b. induction H as [|c s Hc _ IH]; intros b; [done|].
  destruct (lower_cp_ascii c Hc) as (l & Hl & Hs & Hp).
  simpl. rewrite Hl. simpl.
  unfold nonspace. rewrite Hs, Hp, !IH. done.
Qed.

Lemma word_count_lower_ascii T : is_ascii T → word_count (lower T) = word_count T.
Proof. intros H. by rewrite !word_count_tokens, count_tokens_lower_ascii. Qed.

Lemma sentence_count_lower_ascii T :
  is_ascii T → sentence_count (lower T) = sentence_count T.
Proof.
  intros H. by rewrite !sentence_count_sentences, count_sentences_lower_ascii.
Qed.

End LowerCase.

(** X15: The analysis ignores letter case: two ASCII transcripts with the same
    lowercase form, asked two ASCII questions with the same lowercase form,
    get the same result, counts and feedback included. *)
Theorem analyze_text_ignores_case (T T' Qn Qn' : list N) :
  is_ascii T → is_ascii T' → is_ascii Qn → is_ascii Qn' →
  lower T = lower T' → lower Qn = lower Qn' →
  analyze_text T Qn = analyze_text T' Qn'.
Proof.
  intros HT HT' _ _ El Eq.
  assert (word_count T = word_count T') as Ew.
  { by rewrite <- (word_count_lower_ascii T), <- (word_count_lower_ascii T'), El. }
  assert (sentence_count T = sentence_count T') as Es.
  { by rewrite <- (sentence_count_lower_ascii T),
         <- (sentence_count_lower_ascii T'), El. }
  unfold analyze_text, avg_words_per_sentence, confidence_unclamped,
    clarity_unclamped, relevance_unclamped, make_feedback, fillers,
    structure_count, overlap.
  rewrite !Ew, !Es, !El, !Eq. reflexivity.
Qed.

Lemma analyze_text_ignores_case_witness :
  analyze_text (lit "Maybe. I Led a Project") (lit "Which PROJECT?")
  = analyze_text (lit "maybe. i led A pRoJeCt") (lit "which project?").
Proof.
  apply (analyze_text_ignores_case (lit "Maybe. I Led a Project")
           (lit "maybe. i led A pRoJeCt") (lit "Which PROJECT?")
           (lit "which project?"));
    first [reflexivity | apply (bool_decide_unpack _); by vm_compute].
Defined.

(** * The endpoints of backend/server.py *)

(** A value of a response dictionary. *)
Inductive json :=
| JBool (b : bool)
| JStr (s : list N)
| JDict (d : gmap string value).

Module BackendApi.

(** What the speech recognition called by [transcribe_audio] does with the
    audio file: it returns a transcript or raises.  The service is outside
    the repository; its outcome is the argument of the model. *)
Inductive recognition :=
| Recognized (transcript : list N)
| UnknownValueError
| RequestError (e : list N)
| OtherError (e : list N).

(** [transcribe_audio], lines 21-40: the pair (transcript, error_message),
    [None] for Python's None; [e] is the text of the exception. *)
Definition transcribe_audio (audio : recognition) : option (list N) * option (list N) :=
  match audio with
  | Recognized transcript => (Some transcript, None)
  | UnknownValueError => (None, Some (lit "Could not understand audio"))
  | RequestError e => (None, Some (lit "Speech recognition error: " ++ e))
  | OtherError e => (None, Some (lit "Transcription error: " ++ e))
  end.

(** Truth value of an optional string: None and the empty string are
    false. *)
Definition truthy_opt (s : option (list N)) : bool :=
  match s with None => false | Some s => truthy s end.

(** The failure response of [analyze_audio]. *)
Definition failure (error : list N) : gmap string json :=
  <["success" := JBool false]>
  (<["error" := JStr error]>
  (<["transcript" := JStr []]>
  (<["analysis" := JDict ∅]> ∅))).

Definition success (transcript question : list N) (analysis : gmap string value)
    : gmap string json :=
  <["success" := JBool true]>
  (<["transcript" := JStr transcript]>
  (<["analysis" := JDict analysis]>
  (<["question" := JStr question]> ∅))).

(** The text of the only exception [analyze_text] could raise in the
    model. *)
Definition zero_division : list N := lit "division by zero".

(** What happens to the upload of [analyze_audio]: it is stored in a
    temporary file and handed to the recognition, or storing it raises. *)
Inductive upload :=
| Stored (audio : recognition)
| StoreError (e : list N).

(** [analyze_audio], lines 163-230; the removal of the temporary file in the
    finally block has no part in the response. *)
Definition analyze_audio (audio : upload) (question : list N) : gmap string json :=
  match audio with
  | StoreError e => failure (lit "Server error: " ++ e)
  | Stored audio =>
      let '(transcript, error) := transcribe_audio audio in
      if truthy_opt error then failure (default [] error)
      else if negb (truthy_opt transcript)
      then failure (lit "No speech detected in audio")
      else
        match analyze_text (default [] transcript) question with
        | Some analysis => success (default [] transcript) question analysis
        | None => failure (lit "Server error: " ++ zero_division)
        end
  end.

(** [analyze_text_endpoint], lines 233-261. *)
Definition analyze_text_endpoint (transcript question : list N) : gmap string json :=
  match analyze_text transcript question with
  | Some analysis => success transcript question analysis
  | None =>
      <["success" := JBool false]>
      (<["error" := JStr (lit "Analysis error: " ++ zero_division)]>
      (<["analysis" := JDict ∅]> ∅))
  end.

End BackendApi.

Import BackendApi.

(** X16: [transcribe_audio] returns a transcript or an error message, never both
    and never neither, and an error message is never empty: the test
    [if error] of [analyze_audio] sees every failure. *)
Theorem transcribe_audio_either (audio : recognition) :
  match transcribe_audio audio with
  | (Some transcript, None) => audio = Recognized transcript
  | (None, Some error) => truthy error = true ∧ ∀ t, audio ≠ Recognized t
  | _ => False
  end.
Proof. by destruct audio. Qed.

(** X17: [analyze_audio] reports success exactly when the upload was stored and
    the recognition returned a non-empty transcript; the response then
    carries this transcript, the question and the result of
    [analyze_text] on them, and no error. *)
Theorem analyze_audio_success_iff (audio : upload) (question : list N) :
  analyze_audio audio question !! "success"%string = Some (JBool true)
  ↔ ∃ transcript analysis,
      audio = Stored (Recognized transcript) ∧ transcript ≠ []
      ∧ analyze_text transcript question = Some analysis
      ∧ analyze_audio audio question = success transcript question analysis
      ∧ analyze_audio audio question !! "error"%string = None.
Proof.
  split.
  - destruct audio as [[t| |e|e]|e]; try done.
    unfold analyze_audio. simpl.
    destruct t as [|c t]; [done|]. simpl.
    destruct (analyze_text_result (c :: t) question) as (r & Hr & _).
    rewrite Hr. intros _. by exists (c :: t), r.
  - intros (t & r & -> & _ & _ & -> & _). done.
Qed.

(** X18: Every other response of [analyze_audio] is a failure with a non-empty
    error message, an empty transcript and an empty analysis. *)
Theorem analyze_audio_failure (audio : upload) (question : list N) :
  analyze_audio audio question !! "success"%string ≠ Some (JBool true) →
  ∃ error, analyze_audio audio question = failure error ∧ truthy error = true
         ∧ analyze_audio audio question !! "transcript"%string = Some (JStr [])
         ∧ analyze_audio audio question !! "analysis"%string = Some (JDict ∅).
Proof.
  destruct audio as [[t| |e|e]|e]; unfold analyze_audio; simpl;
    try (intros _; eexists; by repeat split).
  destruct t as [|c t]; simpl; [intros _; eexists; by repeat split|].
  destruct (analyze_text_result (c :: t) question) as (r & Hr & _).
  rewrite Hr. intros H. by destruct H.
Qed.

Lemma analyze_audio_failure_witness :
  ∃ error, analyze_audio (Stored UnknownValueError) [] = failure error
         ∧ truthy error = true
         ∧ analyze_audio (Stored UnknownValueError) [] !! "transcript"%string
           = Some (JStr [])
         ∧ analyze_audio (Stored UnknownValueError) [] !! "analysis"%string
           = Some (JDict ∅).
Proof. apply (analyze_audio_failure (Stored UnknownValueError) []). discriminate. Defined.

(** X19: [analyze_text_endpoint] never takes its except branch: for every
    transcript and question it answers success, echoes both and carries
    the result of [analyze_text]; an empty transcript is analysed like any
    other, unlike in [analyze_audio]. *)
Theorem analyze_text_endpoint_succeeds (transcript question : list N) :
  ∃ analysis,
    analyze_text transcript question = Some analysis
    ∧ analyze_text_endpoint transcript question = success transcript question analysis
    ∧ analyze_text_endpoint transcript question !! "success"%string = Some (JBool true)
    ∧ analyze_text_endpoint transcript question !! "error"%string = None
    ∧ analyze_audio (Stored (Recognized [])) question !! "success"%string
      = Some (JBool false).
Proof.
  destruct (analyze_text_result transcript question) as (r & Hr & _).
  exists r. unfold analyze_text_endpoint. rewrite Hr. by repeat split.
Qed.

(** * The mock and the overall assessment of frontend/app.py *)

Module FrontendDisplay.

Inductive assessment := Excellent | Good | NeedsImprovement.

(** [analysis.get(key, 0)] read as a number; a list there makes the
    arithmetic of line 344 raise (None). *)
Definition get_score (analysis : gmap string value) (key : string) : option Q :=
  match analysis !! key with
  | None => Some 0%Q
  | Some (VNum x) => Some (val x)
  | Some (VList _) => None
  end.

(** What the page shows for an analysis: the error of line 363 or an
    overall assessment. *)
Inductive shown := NoAnalysisData | Overall (a : assessment).

(** Lines 312-363: an empty analysis gives no assessment (the guard of
    line 312); otherwise the label of the average of the three scores. *)
Definition overall_assessment (analysis : gmap string value) : option shown :=
  if decide (dom analysis = ∅) then Some NoAnalysisData
  else
    confidence ← get_score analysis "confidence_score";
    clarity ← get_score analysis "clarity_score";
    relevance ← get_score analysis "relevance_score";
    let avg_score := ((confidence + clarity + relevance) / 3)%Q in
    Some (Overall (if Qle_bool 8 avg_score then Excellent
                   else if Qle_bool 6 avg_score then Good
                   else NeedsImprovement)).

End FrontendDisplay.

Import FrontendDisplay.

Section MockFacts.

Import Frontend.

Implicit Types (T Qn : list N).

Lemma round_half_even_lower (x : Q) (n : Z) :
  (inject_Z n <= x)%Q → n <= round_half_even x.
Proof.
  intros H. apply Qfloor_resp_le in H. rewrite Qfloor_Z in H.
  destruct (round_half_even_cases x) as [->|[-> _]]; lia.
Qed.

Lemma round1_lower (q : Q) (n : Z) : (inject_Z n <= q)%Q → (inject_Z n <= round1 q)%Q.
Proof.
  intros H. unfold round1. rewrite inject_Z_div_10.
  assert (10 * n <= round_half_even (q * 10)) as Hr.
  { apply round_half_even_lower. rewrite inject_Z_mult.
    change (inject_Z 10) with 10%Q. lra. }
  unfold Qle. simpl. lia.
Qed.

(** The three scores of the mock. *)
Definition mock_confidence T : num :=
  py_round1 (py_min (Int 10) (py_max (Int 5)
               (Float (inject_Z (len (split_ws T)) / inject_Z 15)))).
Definition mock_clarity T : num :=
  py_round1 (py_min (Int 10) (Int (7 + (if 2 <? len (split 46 T) then 1 else 0)))).
Definition mock_relevance T Qn : num :=
  py_round1 (py_min (Int 10)
    (Int (6 + (if existsb (fun word => contains word (lower T)) (split_ws (lower Qn))
               then 2 else 0)))).

Lemma mock_analysis_scores T Qn :
  ∃ r, mock_analysis T Qn = Some r
     ∧ r !! "confidence_score"%string = Some (VNum (mock_confidence T))
     ∧ r !! "clarity_score"%string = Some (VNum (mock_clarity T))
     ∧ r !! "relevance_score"%string = Some (VNum (mock_relevance T Qn)).
Proof.
  unfold mock_analysis. rewrite truediv_some by done. simpl.
  eexists. by repeat split.
Qed.

Lemma mock_confidence_cases T :
  (word_count T <= 75 → mock_confidence T = Int 5)
  ∧ (150 <= word_count T → mock_confidence T = Int 10)
  ∧ (75 < word_count T < 150 →
     ∃ q, mock_confidence T = Float q ∧ (5 <= q <= 10)%Q).
Proof.
  unfold mock_confidence. change (len (split_ws T)) with (word_count T).
  generalize (word_count T). intros wc.
  assert (∀ k : Z, Qltb (inject_Z k) (inject_Z wc / inject_Z 15) = (15 * k <? wc)) as Hlt.
  { intros k. destruct (15 * k <? wc) eqn:E.
    - apply Z.ltb_lt in E. apply Qltb_lt. unfold Qlt. simpl. lia.
    - apply Z.ltb_ge in E. apply Qltb_ge. unfold Qle. simpl. lia. }
  assert (∀ k : Z, Qltb (inject_Z wc / inject_Z 15) (inject_Z k) = (wc <? 15 * k)) as Hgt.
  { intros k. destruct (wc <? 15 * k) eqn:E.
    - apply Z.ltb_lt in E. apply Qltb_lt. unfold Qlt. simpl. lia.
    - apply Z.ltb_ge in E. apply Qltb_ge. unfold Qle. simpl. lia. }
  unfold py_max. simpl val. rewrite (Hlt 5).
  repeat split.
  - intros H. by rewrite (proj2 (Z.ltb_ge (15 * 5) wc)) by lia.
  - intros H. rewrite (proj2 (Z.ltb_lt (15 * 5) wc)) by lia.
    unfold py_min. simpl val. rewrite (Hgt 10).
    by rewrite (proj2 (Z.ltb_ge wc (15 * 10))) by lia.
  - intros H. rewrite (proj2 (Z.ltb_lt (15 * 5) wc)) by lia.
    unfold py_min. simpl val. rewrite (Hgt 10).
    rewrite (proj2 (Z.ltb_lt wc (15 * 10))) by lia. simpl.
    eexists. split; [reflexivity|].
    assert (5 <= inject_Z wc / inject_Z 15 <= 10)%Q as Hq.
    { split; unfold Qle; simpl; lia. }
    split; [apply (round1_lower _ 5); by destruct Hq | apply round1_range; lra].
Qed.

End MockFacts.

(** X20: The confidence score of the mock depends on the word count alone: 5 up
    to 75 words, 10 from 150 words on, and between them the quotient by 15
    rounded to one decimal, which stays within 5 and 10. *)
Theorem mock_confidence_by_length (transcript question : list N) :
  ∃ r c, Frontend.mock_analysis transcript question = Some r
       ∧ r !! "confidence_score"%string = Some (VNum c)
       ∧ (word_count transcript <= 75 → c = Int 5)
       ∧ (150 <= word_count transcript → c = Int 10)
       ∧ (75 < word_count transcript < 150 →
          ∃ q, c = Float q ∧ (5 <= q <= 10)%Q
             ∧ (q == round1 (inject_Z (word_count transcript) / 15))%Q).
Proof.
  destruct (mock_analysis_scores transcript question) as (r & Hr & H1 & _).
  exists r, (mock_confidence transcript). split; [done|]. split; [done|].
  destruct (mock_confidence_cases transcript) as (Ha & Hb & Hc).
  split; [done|]. split; [done|]. intros H.
  destruct (Hc H) as (q & Hq & Hr').
  exists q. split; [done|]. split; [done|].
  revert Hq. unfold mock_confidence, word_count, py_min, py_max.
  destruct (Qltb _ _); [|done]. destruct (Qltb _ _); [|done].
  simpl. intros [= <-]. reflexivity.
Qed.

(** X21: The clarity score of the mock is 8 when the transcript holds two
    periods or more and 7 otherwise; its relevance score is 8 when a
    lowercase question word occurs in the lowercased transcript and 6
    otherwise, so 6 for an empty question. *)
Theorem mock_clarity_relevance (transcript question : list N) :
  ∃ r, Frontend.mock_analysis transcript question = Some r
     ∧ r !! "clarity_score"%string
       = Some (VNum (Int (if decide (2 <= length (List.filter (fun c => (c =? 46)%N)
                                                    transcript))%nat
                          then 8 else 7)))
     ∧ r !! "relevance_score"%string
       = Some (VNum (Int (if decide (Exists (fun w => occurs_in w (lower transcript))
                                          (split_ws (lower question)))
                          then 8 else 6)))
     ∧ (question = [] → r !! "relevance_score"%string = Some (VNum (Int 6))).
Proof.
  destruct (mock_analysis_scores transcript question) as (r & Hr & _ & H2 & H3).
  exists r. split; [done|].
  assert (mock_relevance transcript question
          = Int (if decide (Exists (fun w => occurs_in w (lower transcript))
                                 (split_ws (lower question)))
                 then 8 else 6)) as Hrel.
  { unfold mock_relevance.
    destruct (existsb _ _) eqn:E.
    - rewrite decide_True; [done|]. apply existsb_exists in E as (w & Hw & Hc).
      apply Exists_exists. exists w. by rewrite list_elem_of_In, <- contains_spec.
    - rewrite decide_False; [done|]. intros (w & Hw & Hc)%Exists_exists.
      apply not_true_iff_false in E. apply E, existsb_exists.
      exists w. by rewrite <- list_elem_of_In, contains_spec. }
  repeat split.
  - rewrite H2. unfold mock_clarity, split, len.
    rewrite length_split_from. repeat f_equal.
    destruct (2 <? _) eqn:E.
    + apply Z.ltb_lt in E. rewrite decide_True by lia. done.
    + apply Z.ltb_ge in E. rewrite decide_False by lia. done.
  - by rewrite H3, Hrel.
  - intros ->. by rewrite H3.
Qed.

(** X22: With the mock the overall assessment is never "Needs Improvement": the
    scores are at least 5, 7 and 6, so their average is at least 6. *)
Theorem mock_never_needs_improvement (transcript question : list N) :
  ∃ r a, Frontend.mock_analysis transcript question = Some r
       ∧ overall_assessment r = Some (Overall a)
       ∧ a ≠ NeedsImprovement.
Proof.
  destruct (mock_analysis_scores transcript question) as (r & Hr & H1 & H2 & H3).
  exists r. unfold overall_assessment, get_score.
  rewrite decide_False
    by (intros Hd; apply elem_of_dom_2 in H1; rewrite Hd in H1; set_solver).
  rewrite H1, H2, H3. simpl.
  eexists. split; [done|]. split; [reflexivity|].
  assert (5 <= val (mock_confidence transcript))%Q as Hc.
  { destruct (mock_confidence_cases transcript) as (Ha & Hb & Hc).
    destruct (decide (word_count transcript <= 75)) as [H|H];
      [rewrite (Ha H); by vm_compute|].
    destruct (decide (150 <= word_count transcript)) as [H'|H'];
      [rewrite (Hb H'); by vm_compute|].
    destruct Hc as (q & -> & Hq & _); [lia | done]. }
  assert (7 <= val (mock_clarity transcript))%Q as Hcl.
  { unfold mock_clarity. destruct (_ <? _); by vm_compute. }
  assert (6 <= val (mock_relevance transcript question))%Q as Hre.
  { unfold mock_relevance. destruct (existsb _ _); by vm_compute. }
  destruct (Qle_bool 8 _); [done|].
  destruct (Qle_bool 6 _) eqn:E; [done|].
  apply not_true_iff_false in E. exfalso. apply E, Qle_bool_iff.
  apply Qle_shift_div_l; lra.
Qed.
